(** * PyChain: a hash-chained ledger with proof-of-work admission

    A verification development for [pychain.py].  The Python program is
    embedded shallowly: dataclasses become records, the mutable [Block]
    objects live in an explicit object store addressed by references,
    loops that Python runs without bound take a fuel argument, and
    exceptions are explicit outcomes. *)

From Stdlib Require Import ZArith List String Ascii Bool Lia DecimalString.
Import ListNotations.

#[local] Open Scope Z_scope.
#[local] Open Scope string_scope.

(* ================================================================== *)
(** ** [hashlib.sha256]

    Python's [hashlib.sha256] is the FIPS 180-4 function.  It is written
    out here on 32-bit words held in [Z], with the wrap-around explicit,
    so that digests can be computed and compared with CPython's. *)

Module SHA256.

Definition mask32 : Z := 0xffffffff.

Definition add32 (x y : Z) : Z := Z.land (x + y) mask32.

Definition rotr (n x : Z) : Z :=
  Z.lor (Z.shiftr x n) (Z.land (Z.shiftl x (32 - n)) mask32).

Definition shr (n x : Z) : Z := Z.shiftr x n.

Definition not32 (x : Z) : Z := Z.lxor x mask32.

Definition Ch (x y z : Z) : Z :=
  Z.lxor (Z.land x y) (Z.land (not32 x) z).

Definition Maj (x y z : Z) : Z :=
  Z.lxor (Z.lxor (Z.land x y) (Z.land x z)) (Z.land y z).

Definition Sigma0 (x : Z) : Z :=
  Z.lxor (Z.lxor (rotr 2 x) (rotr 13 x)) (rotr 22 x).

Definition Sigma1 (x : Z) : Z :=
  Z.lxor (Z.lxor (rotr 6 x) (rotr 11 x)) (rotr 25 x).

Definition sigma0 (x : Z) : Z :=
  Z.lxor (Z.lxor (rotr 7 x) (rotr 18 x)) (shr 3 x).

Definition sigma1 (x : Z) : Z :=
  Z.lxor (Z.lxor (rotr 17 x) (rotr 19 x)) (shr 10 x).

(** The constants are the first 32 bits of the fractional parts of the
    cube roots (round constants) and square roots (initial chaining
    value) of the first primes. *)
Definition is_prime (p : Z) : bool :=
  forallb (fun d => negb (Z.eqb (p mod Z.of_nat d) 0))
          (seq 2 (Z.to_nat p - 2)).

Definition primes (count : nat) : list Z :=
  firstn count (filter is_prime (map Z.of_nat (seq 2 400))).

(** The largest [r' >= r] with [r' ^ deg <= n], trying the bits below
    [2 ^ k] from the top. *)
Fixpoint root_bits (k : nat) (deg n r : Z) : Z :=
  match k with
  | O => r
  | S k' =>
      let r' := r + 2 ^ Z.of_nat k' in
      root_bits k' deg n (if Z.leb (r' ^ deg) n then r' else r)
  end.

Definition frac32 (deg p : Z) : Z :=
  Z.land (root_bits 48 deg (p * 2 ^ (32 * deg)) 0) mask32.

Definition K : list Z := Eval vm_compute in map (frac32 3) (primes 64).

(** The eight working variables, also the chaining value. *)
Record regs : Type := Regs {
  ra : Z; rb : Z; rc : Z; rd : Z; re : Z; rf : Z; rg : Z; rh : Z
}.

Definition regs_of_list (l : list Z) : regs :=
  Regs (nth 0 l 0) (nth 1 l 0) (nth 2 l 0) (nth 3 l 0)
       (nth 4 l 0) (nth 5 l 0) (nth 6 l 0) (nth 7 l 0).

Definition H0 : regs :=
  Eval vm_compute in regs_of_list (map (frac32 2) (primes 8)).

(** Padding: a [0x80] byte, zeros up to 56 modulo 64, and the bit
    length as a 64-bit big-endian number. *)
Definition be_bytes (n : nat) (x : Z) : list Z :=
  map (fun i => Z.land (Z.shiftr x (8 * Z.of_nat i)) 0xff) (rev (seq 0 n)).

Definition pad (msg : list Z) : list Z :=
  let len := Z.of_nat (List.length msg) in
  (msg ++ [0x80] ++ repeat 0 (Z.to_nat ((55 - len) mod 64))
       ++ be_bytes 8 (8 * len))%list.

Definition be_word (b0 b1 b2 b3 : Z) : Z :=
  Z.lor (Z.lor (Z.shiftl b0 24) (Z.shiftl b1 16)) (Z.lor (Z.shiftl b2 8) b3).

Fixpoint words (bs : list Z) : list Z :=
  match bs with
  | b0 :: b1 :: b2 :: b3 :: rest => be_word b0 b1 b2 b3 :: words rest
  | _ => []
  end.

(** The message schedule, produced from a sliding window of the last
    sixteen words. *)
Definition next_word (win : list Z) : Z :=
  add32 (add32 (sigma1 (nth 14 win 0)) (nth 9 win 0))
        (add32 (sigma0 (nth 1 win 0)) (nth 0 win 0)).

Fixpoint schedule (n : nat) (win : list Z) : list Z :=
  match n with
  | O => []
  | S n' =>
      match win with
      | [] => []
      | w0 :: tl => w0 :: schedule n' (tl ++ [next_word win])%list
      end
  end.

Definition round (r : regs) (kw : Z * Z) : regs :=
  let (k, w) := kw in
  let t1 := add32 (add32 (add32 (rh r) (Sigma1 (re r)))
                         (add32 (Ch (re r) (rf r) (rg r)) k)) w in
  let t2 := add32 (Sigma0 (ra r)) (Maj (ra r) (rb r) (rc r)) in
  Regs (add32 t1 t2) (ra r) (rb r) (rc r) (add32 (rd r) t1) (re r) (rf r) (rg r).

Definition compress (h : regs) (block : list Z) : regs :=
  let r := fold_left round (combine K (schedule 64 block)) h in
  Regs (add32 (ra h) (ra r)) (add32 (rb h) (rb r))
       (add32 (rc h) (rc r)) (add32 (rd h) (rd r))
       (add32 (re h) (re r)) (add32 (rf h) (rf r))
       (add32 (rg h) (rg r)) (add32 (rh h) (rh r)).

(** One compression per sixteen words of the padded message. *)
Fixpoint blocks (n : nat) (h : regs) (ws : list Z) : regs :=
  match n with
  | O => h
  | S n' =>
      match ws with
      | [] => h
      | _ => blocks n' (compress h (firstn 16 ws)) (skipn 16 ws)
      end
  end.

Definition digest (msg : list Z) : regs :=
  let ws := words (pad msg) in
  blocks (List.length ws) H0 ws.

(** Lower-case hexadecimal, as [hexdigest] prints it. *)
Definition hexdigit (n : Z) : ascii :=
  nth (Z.to_nat (Z.land n 15))
      (list_ascii_of_string "0123456789abcdef") "0"%char.

Definition hex8 (w : Z) : string :=
  String (hexdigit (Z.shiftr w 28)) (String (hexdigit (Z.shiftr w 24))
 (String (hexdigit (Z.shiftr w 20)) (String (hexdigit (Z.shiftr w 16))
 (String (hexdigit (Z.shiftr w 12)) (String (hexdigit (Z.shiftr w 8))
 (String (hexdigit (Z.shiftr w 4))  (String (hexdigit w) EmptyString))))))).

Definition hex_of_regs (r : regs) : string :=
  hex8 (ra r) ++ hex8 (rb r) ++ hex8 (rc r) ++ hex8 (rd r) ++
  hex8 (re r) ++ hex8 (rf r) ++ hex8 (rg r) ++ hex8 (rh r).

Definition hexdigest (msg : list Z) : string :=
  hex_of_regs (digest msg).

End SHA256.


(* ================================================================== *)
(** ** Python values and builtins *)

(** A [str] is held as its UTF-8 encoding, so [str.encode()] only
    changes the type. *)
Definition bytes : Type := list Z.

Definition encode (s : string) : bytes :=
  map (fun c => Z.of_N (N_of_ascii c)) (list_ascii_of_string s).

(** The object [hashlib.sha256()] returns: the bytes fed to it so far. *)
Module hashlib.

Record sha256_t : Type := { fed : bytes }.

Definition sha256 : sha256_t := {| fed := [] |}.

Definition update (h : sha256_t) (data : bytes) : sha256_t :=
  {| fed := (fed h ++ data)%list |}.

Definition hexdigest (h : sha256_t) : string := SHA256.hexdigest (fed h).

End hashlib.

(** [str(n)] for an [int]. *)
Definition str_int (n : Z) : string := NilZero.string_of_int (Z.to_int n).

(** [s * n]: [n] copies of [s], none when [n <= 0]. *)
Definition str_mul (s : string) (n : Z) : string :=
  String.concat "" (repeat s (Z.to_nat n)).

(** [s.startswith(prefix)]. *)
Fixpoint startswith (s prefix : string) : bool :=
  match prefix with
  | EmptyString => true
  | String p prefix' =>
      match s with
      | EmptyString => false
      | String c s' => Ascii.eqb c p && startswith s' prefix'
      end
  end.

(** [datetime.strftime("%H:%M:%S")] of a naive UTC time, given in
    seconds. *)
Definition two_digits (n : Z) : string := str_int (n / 10) ++ str_int (n mod 10).

Definition strftime_HMS (t : Z) : string :=
  two_digits ((t / 3600) mod 24) ++ ":" ++
  two_digits ((t / 60) mod 60) ++ ":" ++
  two_digits (t mod 60).

(** The exceptions the program can raise. *)
Inductive exn : Type := IndexError | ValueError.

(** What the program takes from CPython for floating-point amounts and
    for the [repr] of strings: [float(s)] ([None] when it raises
    [ValueError]), [repr(x)] of a float, and [repr(s)] of a [str]. *)
Class Builtins : Type := {
  pyfloat : Type;
  float_of_str : string -> option pyfloat;
  repr_float : pyfloat -> string;
  repr_str : string -> string
}.

(** An instance to run the model on concrete ledgers: amounts written
    as a few decimal digits, and names in plain letters, for which it
    prints what CPython prints ([float("10")] is [10.0], and the [repr]
    of [Bob] is that name between single quotes); any other amount is
    rejected.  No general result depends on it. *)
Module Whole.

Definition digit_of (c : ascii) : option Z :=
  let n := Z.of_N (N_of_ascii c) in
  if ((48 <=? n)%Z && (n <=? 57)%Z)%bool then Some (n - 48) else None.

Fixpoint digits (s : string) (acc : Z) : option Z :=
  match s with
  | EmptyString => Some acc
  | String c s' =>
      match digit_of c with
      | Some d => digits s' (10 * acc + d)
      | None => None
      end
  end.

Definition parse (s : string) : option Z :=
  match s with
  | EmptyString => None
  | _ => digits s 0
  end.

Definition show (x : Z) : string := str_int x ++ ".0".

Definition quote (s : string) : string := "'" ++ s ++ "'".

Definition builtins : Builtins :=
  {| pyfloat := Z;
     float_of_str := parse;
     repr_float := show;
     repr_str := quote |}.

End Whole.

(* ================================================================== *)
(** ** The dataclasses *)

Section PyChain.

Context {B : Builtins}.

(** [class Record]. *)
Record Record_ : Type := {
  sender : string;
  receiver : string;
  amount : pyfloat
}.

(** The dataclass-generated [__repr__], which [str] falls back on. *)
Definition Record_repr (r : Record_) : string :=
  "Record(sender=" ++ repr_str (sender r) ++
  ", receiver=" ++ repr_str (receiver r) ++
  ", amount=" ++ repr_float (amount r) ++ ")".

(** The values the fields of a block hold in this program: the genesis
    block has the string ["Genesis"] for a record and the integer [0]
    for a previous hash. *)
Inductive pyval : Type :=
| VStr (s : string)
| VInt (n : Z)
| VRecord (r : Record_).

Definition py_str (v : pyval) : string :=
  match v with
  | VStr s => s
  | VInt n => str_int n
  | VRecord r => Record_repr r
  end.

(** [class Block].  The annotations of [prev_hash] and [nonce] say
    [str], but their defaults are the integer [0] and the search adds 1
    to the nonce: the nonce is an [int], and the previous hash is the
    integer [0] or a digest. *)
Record Block : Type := {
  record : pyval;
  creator_id : Z;
  prev_hash : pyval;
  timestamp : string;
  nonce : Z
}.

Definition set_nonce (b : Block) (n : Z) : Block :=
  {| record := record b; creator_id := creator_id b;
     prev_hash := prev_hash b; timestamp := timestamp b; nonce := n |}.

Definition set_prev_hash (b : Block) (v : pyval) : Block :=
  {| record := record b; creator_id := creator_id b;
     prev_hash := v; timestamp := timestamp b; nonce := nonce b |}.

(** [Block.hash_block]. *)
Definition hash_block (self : Block) : string :=
  let sha := hashlib.sha256 in
  let sha := hashlib.update sha (encode (py_str (record self))) in
  let sha := hashlib.update sha (encode (str_int (creator_id self))) in
  let sha := hashlib.update sha (encode (timestamp self)) in
  let sha := hashlib.update sha (encode (py_str (prev_hash self))) in
  let sha := hashlib.update sha (encode (str_int (nonce self))) in
  hashlib.hexdigest sha.

(** [block_hash != block.prev_hash], with a [str] on the left: a
    string equals only an equal string. *)
Definition str_ne (s : string) (v : pyval) : bool :=
  match v with
  | VStr s' => negb (String.eqb s s')
  | _ => true
  end.

(** *** The object store

    Blocks are mutable objects: [proof_of_work] increments the nonce
    of the block it is given and returns that same object, which
    [add_block] then appends to the chain.  A [ref] names an object;
    the world holds the objects, the next unused reference, and the
    clock [datetime.utcnow()] reads (in seconds). *)
Definition ref : Type := nat.

Record World : Type := {
  heap : ref -> Block;
  fresh : ref;
  utcnow : Z
}.

Definition store (w : World) (l : ref) (b : Block) : World :=
  {| heap := fun l' => if Nat.eqb l' l then b else heap w l';
     fresh := fresh w;
     utcnow := utcnow w |}.

Definition alloc (w : World) (b : Block) : ref * World :=
  (fresh w,
   {| heap := fun l' => if Nat.eqb l' (fresh w) then b else heap w l';
      fresh := S (fresh w);
      utcnow := utcnow w |}).

Definition set_clock (w : World) (t : Z) : World :=
  {| heap := heap w; fresh := fresh w; utcnow := t |}.

(** How a call ends: with a value, with an exception, or not within
    the loop iterations it was allowed. *)
Inductive outcome (A : Type) : Type :=
| Return (a : A) (w : World)
| Raise (e : exn) (w : World)
| OutOfFuel.

Arguments Return {A} a w.
Arguments Raise {A} e w.
Arguments OutOfFuel {A}.

(** The class object [Block]: its field defaults are evaluated once,
    when the [class] statement runs. *)
Record BlockClass : Type := {
  default_prev_hash : pyval;
  default_timestamp : string;
  default_nonce : Z
}.

Definition class_Block (w : World) : BlockClass :=
  {| default_prev_hash := VInt 0;
     default_timestamp := strftime_HMS (utcnow w);
     default_nonce := 0 |}.

Definition from_default {A : Type} (given : option A) (default : A) : A :=
  match given with
  | Some a => a
  | None => default
  end.

(** [Block(record, creator_id, prev_hash=..., timestamp=..., nonce=...)]:
    the generated [__init__], and the new object. *)
Definition Block_init (cls : BlockClass) (record : pyval) (creator_id : Z)
    (prev_hash : option pyval) (timestamp : option string)
    (nonce : option Z) : Block :=
  {| record := record;
     creator_id := creator_id;
     prev_hash := from_default prev_hash (default_prev_hash cls);
     timestamp := from_default timestamp (default_timestamp cls);
     nonce := from_default nonce (default_nonce cls) |}.

Definition Block_new (cls : BlockClass) (record : pyval) (creator_id : Z)
    (prev_hash : option pyval) (timestamp : option string)
    (nonce : option Z) (w : World) : ref * World :=
  alloc w (Block_init cls record creator_id prev_hash timestamp nonce).

(** [class PyChain]. *)
Record PyChain : Type := {
  chain : list ref;
  difficulty : Z
}.

(** [PyChain.proof_of_work]: the [while] loop, then the method. *)
Fixpoint proof_of_work_while (fuel : nat) (num_of_zeros : string)
    (block : ref) (calculated_hash : string) (w : World) : outcome string :=
  if negb (startswith calculated_hash num_of_zeros) then
    match fuel with
    | O => OutOfFuel
    | S fuel' =>
        let w := store w block
                   (set_nonce (heap w block) (nonce (heap w block) + 1)) in
        let calculated_hash := hash_block (heap w block) in
        proof_of_work_while fuel' num_of_zeros block calculated_hash w
    end
  else Return calculated_hash w.

Definition proof_of_work (fuel : nat) (self : PyChain) (block : ref)
    (w : World) : outcome ref :=
  let calculated_hash := hash_block (heap w block) in
  let num_of_zeros := str_mul "0" (difficulty self) in
  match proof_of_work_while fuel num_of_zeros block calculated_hash w with
  | Return _ w => Return block w
  | Raise e w => Raise e w
  | OutOfFuel => OutOfFuel
  end.

(** [PyChain.add_block]; the result is [self] after the call. *)
Definition add_block (fuel : nat) (self : PyChain) (candidate_block : ref)
    (w : World) : outcome PyChain :=
  match proof_of_work fuel self candidate_block w with
  | Return block w =>
      Return {| chain := chain self ++ [block];
                difficulty := difficulty self |} w
  | Raise e w => Raise e w
  | OutOfFuel => OutOfFuel
  end.

(** [PyChain.is_valid]: the [for] loop over [self.chain[1:]], which
    also counts the blocks it visits, then the method. *)
Fixpoint is_valid_for (w : World) (block_hash : string)
    (blocks : list ref) (visited : nat) : bool * nat :=
  match blocks with
  | [] => (true, visited)
  | block :: rest =>
      if str_ne block_hash (prev_hash (heap w block)) then
        (false, S visited)
      else
        is_valid_for w (hash_block (heap w block)) rest (S visited)
  end.

Definition is_valid (self : PyChain) (w : World) : outcome bool :=
  match chain self with
  | [] => Raise IndexError w
  | first :: rest =>
      let block_hash := hash_block (heap w first) in
      Return (fst (is_valid_for w block_hash rest 0)) w
  end.

(** *** The Streamlit script *)

(** [setup()]. *)
Definition setup (cls : BlockClass) (w : World) : PyChain * World :=
  let (genesis, w) := Block_new cls (VStr "Genesis") 0 None None None w in
  ({| chain := [genesis]; difficulty := 4 |}, w).

(** [pychain.chain[-1]]. *)
Definition chain_last (c : list ref) : option ref :=
  match c with
  | [] => None
  | _ => Some (last c O)
  end.

(** The body of [if st.button("Add Block"):]. *)
Definition add_block_clicked (fuel : nat) (cls : BlockClass)
    (pychain : PyChain) (sender receiver amount : string)
    (w : World) : outcome PyChain :=
  match chain_last (chain pychain) with
  | None => Raise IndexError w
  | Some prev_block =>
      let prev_block_hash := hash_block (heap w prev_block) in
      match float_of_str amount with
      | None => Raise ValueError w
      | Some a =>
          let (new_block, w) :=
            Block_new cls
              (VRecord {| sender := sender; receiver := receiver;
                          amount := a |})
              42 (Some (VStr prev_block_hash)) None None w in
          add_block fuel pychain new_block w
      end
  end.

(** [pychain.difficulty = difficulty]. *)
Definition set_difficulty (pychain : PyChain) (d : Z) : PyChain :=
  {| chain := chain pychain; difficulty := d |}.

End PyChain.

Arguments Return {B A} a w.
Arguments Raise {B A} e w.
Arguments OutOfFuel {B A}.

(* ================================================================== *)
(** ** Vocabulary of the properties *)

(** The digest starts with [d] consecutive ['0'] characters. *)
Definition leading_zeros (d : Z) (digest : string) : Prop :=
  forall i : nat, Z.of_nat i < d -> String.get i digest = Some "0"%char.

Definition is_hex (c : ascii) : bool :=
  existsb (Ascii.eqb c) (list_ascii_of_string "0123456789abcdef").

Fixpoint string_forallb (p : ascii -> bool) (s : string) : bool :=
  match s with
  | EmptyString => true
  | String c s' => p c && string_forallb p s'
  end.

Section Vocabulary.

Context {B : Builtins}.

(** The bytes [hash_block] feeds to the digest, one after another. *)
Definition byte_stream (b : Block) : bytes :=
  (encode (py_str (record b)) ++ encode (str_int (creator_id b)) ++
   encode (timestamp b) ++ encode (py_str (prev_hash b)) ++
   encode (str_int (nonce b)))%list.

(** The block's digest with nonce [n] meets the target [num_of_zeros]. *)
Definition meets_target (num_of_zeros : string) (b : Block) (n : Z) : bool :=
  startswith (hash_block (set_nonce b n)) num_of_zeros.

(** [w'] is [w] after [k] increments of the nonce of [block]: nothing
    else differs. *)
Definition mined_from (w : World) (block : ref) (k : nat) (w' : World) : Prop :=
  heap w' block
    = set_nonce (heap w block) (nonce (heap w block) + Z.of_nat k) /\
  (forall l, l <> block -> heap w' l = heap w l) /\
  fresh w' = fresh w /\
  utcnow w' = utcnow w.

(** Every block of the chain but the first stores the hash of the
    block before it. *)
Definition linked (w : World) (c : list ref) : Prop :=
  forall (i : nat) (p b : ref),
    nth_error c i = Some p -> nth_error c (S i) = Some b ->
    prev_hash (heap w b) = VStr (hash_block (heap w p)).

(** The ledgers the script can hold: made by [setup], then grown by
    clicks on "Add Block" that return, with the difficulty slider
    moved and the clock advancing in between. *)
Inductive built : PyChain -> World -> Prop :=
| built_setup cls w :
    built (fst (setup cls w)) (snd (setup cls w))
| built_click fuel cls pychain w sender receiver amount pychain' w' :
    built pychain w ->
    add_block_clicked fuel cls pychain sender receiver amount w
      = Return pychain' w' ->
    built pychain' w'
| built_slider pychain w d :
    built pychain w -> built (set_difficulty pychain d) w
| built_clock pychain w t :
    built pychain w -> built pychain (set_clock w t).

Definition returns {A : Type} (o : outcome A) : bool :=
  match o with
  | Return _ _ => true
  | _ => false
  end.

End Vocabulary.

(* ================================================================== *)
(** ** A concrete session

    The script started at 12:00:00 UTC, with whole-number amounts: the
    [Block] class is defined, [setup] makes the ledger, and the
    difficulty slider is moved. *)

Module Sample.

#[local] Existing Instance Whole.builtins.

Definition blank : Block :=
  {| record := VInt 0; creator_id := 0; prev_hash := VInt 0;
     timestamp := ""; nonce := 0 |}.

Definition noon : World :=
  {| heap := fun _ => blank; fresh := O; utcnow := 43200 |}.

Definition Block_cls : BlockClass := class_Block noon.

Definition pychain : PyChain := fst (setup Block_cls noon).

Definition world : World := snd (setup Block_cls noon).

(** The genesis block is the object [0]. *)
Definition genesis : ref := O.

Definition at_difficulty (d : Z) : PyChain := set_difficulty pychain d.

(** Five seconds later. *)
Definition later : World := set_clock world 43205.

(** Then, at difficulty 2, a click on "Add Block" with sender Alice,
    receiver Bob and amount 10. *)
Definition clicked : outcome PyChain :=
  add_block_clicked 111 Block_cls (at_difficulty 2) "Alice" "Bob" "10" later.

End Sample.

(* ================================================================== *)
(** ** The script, run by run

    Streamlit runs the script from top to bottom at every interaction.
    A run defines the classes, takes the ledger from [setup] (made on
    the first run and kept by [st.cache] afterwards), runs the "Add
    Block" handler if that button was pressed, assigns the slider's
    value to the ledger's difficulty, and validates the chain if
    "Validate Chain" was pressed. An exception ends the run where it is
    raised. *)

Section Script.

Context {B : Builtins}.

(** What the widgets return in one run. *)
Record Inputs : Type := {
  sender_text : string;
  receiver_text : string;
  amount_text : string;
  add_block_pressed : bool;
  slider_value : Z;
  validate_pressed : bool
}.

(** How a run ends: at the last line, with what "Validate Chain" showed
    if it was pressed, or at an exception. *)
Inductive run_result : Type :=
| Completed (shown : option bool)
| Aborted (e : exn).

(** [pychain = setup()], under [st.cache]. *)
Definition cached_setup (cache : option PyChain) (cls : BlockClass)
    (w : World) : PyChain * World :=
  match cache with
  | Some pychain => (pychain, w)
  | None => setup cls w
  end.

(** The script from the difficulty slider on. *)
Definition script_tail (pychain : PyChain) (inp : Inputs) (w : World) :
    option (PyChain * World * run_result) :=
  let pychain := set_difficulty pychain (slider_value inp) in
  if validate_pressed inp then
    match is_valid pychain w with
    | Return ok w => Some (pychain, w, Completed (Some ok))
    | Raise e w => Some (pychain, w, Aborted e)
    | OutOfFuel => None
    end
  else Some (pychain, w, Completed None).

(** One run: the ledger and the world it leaves, and how it ended;
    [None] when the search was still running at the end of the fuel. *)
Definition script_run (fuel : nat) (cache : option PyChain) (inp : Inputs)
    (w : World) : option (PyChain * World * run_result) :=
  let cls := class_Block w in
  let (pychain, w) := cached_setup cache cls w in
  if add_block_pressed inp then
    match add_block_clicked fuel cls pychain (sender_text inp)
            (receiver_text inp) (amount_text inp) w with
    | Return pychain w => script_tail pychain inp w
    | Raise e w => Some (pychain, w, Aborted e)
    | OutOfFuel => None
    end
  else script_tail pychain inp w.

(** The states of a session: no ledger before the first run; then run
    after run, the slider giving a value from 1 to 5, with the clock
    moving in between. *)
Inductive session : option PyChain -> World -> Prop :=
| session_start w : session None w
| session_clock cache w t :
    session cache w -> session cache (set_clock w t)
| session_run fuel cache inp w pychain w' result :
    session cache w ->
    1 <= slider_value inp <= 5 ->
    script_run fuel cache inp w = Some (pychain, w', result) ->
    session (Some pychain) w'.

(** The genesis block as [setup] makes it, and a block as the handler
    makes it and the search leaves it at difficulty 1 or more. *)
Definition is_genesis (b : Block) : Prop :=
  record b = VStr "Genesis" /\ creator_id b = 0 /\
  prev_hash b = VInt 0 /\ nonce b = 0.

Definition is_entry (b : Block) : Prop :=
  (exists r, record b = VRecord r) /\ creator_id b = 42 /\
  0 <= nonce b /\ leading_zeros 1 (hash_block b).

(** The shape of a ledger of a session. *)
Definition ledger_shape (pychain : PyChain) (w : World) : Prop :=
  exists (g : ref) (rest : list ref),
    chain pychain = g :: rest /\
    is_genesis (heap w g) /\
    Forall (fun l => is_entry (heap w l)) rest /\
    NoDup (chain pychain) /\
    Forall (fun l => (l < fresh w)%nat) (chain pychain) /\
    1 <= difficulty pychain <= 5.

End Script.

(** A two-block ledger written out by hand, and a run of the script. *)
Module Tamper.

#[local] Existing Instance Whole.builtins.

Definition second : Block :=
  {| record := VRecord {| sender := "Alice"; receiver := "Bob";
                          amount := (10 : @pyfloat Whole.builtins) |};
     creator_id := 42;
     prev_hash := VStr (hash_block (heap Sample.world Sample.genesis));
     timestamp := "12:00:00";
     nonce := 111 |}.

Definition world : World := snd (alloc Sample.world second).

Definition pychain : PyChain := {| chain := [0%nat; 1%nat]; difficulty := 2 |}.

(** The genesis block with another creator. *)
Definition forged : Block :=
  {| record := VStr "Genesis"; creator_id := 7; prev_hash := VInt 0;
     timestamp := "12:00:00"; nonce := 0 |}.

(** A block made with the defaults, its previous hash left at [0]. *)
Definition unwired : World :=
  snd (Block_new Sample.Block_cls (VStr "loose") 42 None None None
         Sample.world).

Definition idle : Inputs :=
  {| sender_text := ""; receiver_text := ""; amount_text := "";
     add_block_pressed := false; slider_value := 2;
     validate_pressed := false |}.

Definition bad_amount : Inputs :=
  {| sender_text := "Alice"; receiver_text := "Bob"; amount_text := "ten";
     add_block_pressed := true; slider_value := 3;
     validate_pressed := true |}.

Definition good_amount : Inputs :=
  {| sender_text := "Alice"; receiver_text := "Bob"; amount_text := "10";
     add_block_pressed := true; slider_value := 3;
     validate_pressed := true |}.

End Tamper.

(* ================================================================== *)
(** ** Strings and digests *)

Lemma str_mul_zeros_succ (n : nat) :
  String.concat "" (repeat "0" (S n))
  = String "0" (String.concat "" (repeat "0" n)).
Proof. destruct n; reflexivity. Qed.

Lemma startswith_nil (s : string) : startswith s "" = true.
Proof. destruct s; reflexivity. Qed.

Lemma str_mul_nonpos (s : string) (d : Z) : d <= 0 -> str_mul s d = "".
Proof.
  intros Hd. unfold str_mul.
  replace (Z.to_nat d) with O by lia. reflexivity.
Qed.

Lemma startswith_repeat_zero (n : nat) :
  forall s, startswith s (String.concat "" (repeat "0" n)) = true <->
            (forall i, (i < n)%nat -> String.get i s = Some "0"%char).
Proof.
  induction n as [|n IH]; intros s.
  - split; [intros _ i Hi; lia | intros _; apply startswith_nil].
  - rewrite str_mul_zeros_succ.
    destruct s as [|c s]; cbn [startswith].
    + split; [discriminate|]. intros H.
      specialize (H O (Nat.lt_0_succ n)). discriminate.
    + rewrite andb_true_iff, Ascii.eqb_eq, IH. split.
      * intros [-> H] [|i] Hi; [reflexivity|]. apply H. lia.
      * intros H. split.
        -- specialize (H O (Nat.lt_0_succ n)). now inversion H.
        -- intros i Hi. apply (H (S i)). lia.
Qed.

(** Python's test [digest.startswith("0" * d)] says that the digest has
    [d] leading zeros. *)
Lemma startswith_leading_zeros (s : string) (d : Z) :
  startswith s (str_mul "0" d) = true <-> leading_zeros d s.
Proof.
  unfold str_mul, leading_zeros. rewrite startswith_repeat_zero.
  split; intros H i Hi; apply H; lia.
Qed.

Lemma startswith_length (s p : string) :
  startswith s p = true -> (String.length p <= String.length s)%nat.
Proof.
  revert s. induction p as [|c p IH]; intros [|d s] H; cbn in *;
    try lia; try discriminate.
  apply andb_true_iff in H as [_ H]. apply IH in H. lia.
Qed.

Lemma length_zeros (n : nat) :
  String.length (String.concat "" (repeat "0" n)) = n.
Proof.
  induction n as [|n IH]; [reflexivity|].
  rewrite str_mul_zeros_succ. cbn [String.length]. now rewrite IH.
Qed.

Lemma hexdigit_is_hex (n : Z) : is_hex (SHA256.hexdigit n) = true.
Proof.
  unfold SHA256.hexdigit.
  assert (Hb : (Z.to_nat (Z.land n 15) < 16)%nat).
  { change 15 with (Z.ones 4). rewrite Z.land_ones by lia.
    pose proof (Z.mod_pos_bound n (2 ^ 4) eq_refl). lia. }
  revert Hb. generalize (Z.to_nat (Z.land n 15)). intros k Hk.
  do 16 (destruct k as [|k]; [reflexivity|]). lia.
Qed.

Lemma string_forallb_app (p : ascii -> bool) (s t : string) :
  string_forallb p (s ++ t) = string_forallb p s && string_forallb p t.
Proof.
  induction s as [|c s IH]; cbn; [reflexivity|].
  now rewrite IH, andb_assoc.
Qed.

Lemma hex8_is_hex (w : Z) : string_forallb is_hex (SHA256.hex8 w) = true.
Proof.
  unfold SHA256.hex8. cbn [string_forallb].
  now rewrite !hexdigit_is_hex.
Qed.

(** A SHA-256 digest prints as 64 hexadecimal digits, whatever was
    hashed. *)
Lemma hexdigest_length (msg : bytes) :
  String.length (SHA256.hexdigest msg) = 64%nat.
Proof.
  unfold SHA256.hexdigest. destruct (SHA256.digest msg). reflexivity.
Qed.

Lemma hexdigest_is_hex (msg : bytes) :
  string_forallb is_hex (SHA256.hexdigest msg) = true.
Proof.
  unfold SHA256.hexdigest, SHA256.hex_of_regs.
  now rewrite !string_forallb_app, !hex8_is_hex.
Qed.

(** The implementation agrees with the published test vectors. *)
Example sha256_empty :
  SHA256.hexdigest (encode "")
  = "e3b0c44298fc1c149afbf4c8996fb92427ae41e4649b934ca495991b7852b855".
Proof. vm_compute. reflexivity. Qed.

Example sha256_abc :
  SHA256.hexdigest (encode "abc")
  = "ba7816bf8f01cfea414140de5dae2223b00361a396177a9cb410ff61f20015ad".
Proof. vm_compute. reflexivity. Qed.

Example sha256_two_blocks :
  SHA256.hexdigest
    (encode "abcdbcdecdefdefgefghfghighijhijkijkljklmklmnlmnomnopnopq")
  = "248d6a61d20638b8e5c026930c3e6039a33ce45964ff2167f6ecedd419db06c1".
Proof. vm_compute. reflexivity. Qed.

(* ================================================================== *)
(** ** Blocks and the object store *)

Section Blocks.

Context {B : Builtins}.

Lemma hash_block_stream (b : Block) :
  hash_block b = SHA256.hexdigest (byte_stream b).
Proof.
  unfold hash_block, byte_stream, hashlib.hexdigest, hashlib.update.
  cbn [hashlib.fed hashlib.sha256 app].
  now rewrite <- !app_assoc.
Qed.

Lemma hash_block_length (b : Block) : String.length (hash_block b) = 64%nat.
Proof. rewrite hash_block_stream. apply hexdigest_length. Qed.

Lemma set_nonce_same (b : Block) : set_nonce b (nonce b) = b.
Proof. now destruct b. Qed.

Lemma set_nonce_twice (b : Block) (n m : Z) :
  set_nonce (set_nonce b n) m = set_nonce b m.
Proof. reflexivity. Qed.

Lemma heap_store_same (w : World) (l : ref) (b : Block) :
  heap (store w l b) l = b.
Proof. cbn. now rewrite Nat.eqb_refl. Qed.

Lemma heap_store_other (w : World) (l l' : ref) (b : Block) :
  l' <> l -> heap (store w l b) l' = heap w l'.
Proof. intros H. cbn. now apply Nat.eqb_neq in H as ->. Qed.

Lemma mined_from_zero (w : World) (block : ref) : mined_from w block 0 w.
Proof.
  unfold mined_from. rewrite Z.add_0_r, set_nonce_same. auto.
Qed.

Create HintDb store discriminated.
Create Rewrite HintDb store.
#[local] Hint Resolve mined_from_zero heap_store_other : store.
#[local] Hint Rewrite heap_store_same : store.

(** One more increment, taken first. *)
Lemma mined_from_step (w w' : World) (block : ref) (k : nat) :
  mined_from
    (store w block (set_nonce (heap w block) (nonce (heap w block) + 1)))
    block k w' ->
  mined_from w block (S k) w'.
Proof.
  unfold mined_from. autorewrite with store.
  intros (Hb & Hothers & Hfresh & Hclock). repeat split.
  - rewrite Hb. cbn [set_nonce nonce].
    replace (nonce (heap w block) + 1 + Z.of_nat k)
      with (nonce (heap w block) + Z.of_nat (S k)) by lia.
    reflexivity.
  - intros l Hl. rewrite Hothers by exact Hl. auto with store.
  - exact Hfresh.
  - exact Hclock.
Qed.

Lemma meets_target_own_nonce (zeros : string) (b : Block) :
  meets_target zeros b (nonce b) = startswith (hash_block b) zeros.
Proof. unfold meets_target. now rewrite set_nonce_same. Qed.

(** No digest has more than 64 characters, so none starts with more
    than 64 zeros. *)
Lemma meets_target_too_long (d : Z) (b : Block) (n : Z) :
  64 < d -> meets_target (str_mul "0" d) b n = false.
Proof.
  intros Hd. unfold meets_target.
  destruct (startswith _ _) eqn:E; [|reflexivity].
  apply startswith_length in E.
  unfold str_mul in E. rewrite length_zeros, hash_block_length in E. lia.
Qed.

End Blocks.

(* ================================================================== *)
(** ** The proof-of-work search *)

Section Mining.

Context {B : Builtins}.

(** What the loop does, for every fuel: it returns after [k]
    increments exactly when the [k]-th nonce is the first to meet the
    target, and it runs out of fuel only when none of the nonces it
    tried does. *)
Lemma proof_of_work_while_spec (zeros : string) (block : ref) (fuel : nat) :
  forall (w : World) (h : string),
    h = hash_block (heap w block) ->
    match proof_of_work_while fuel zeros block h w with
    | Return h' w' =>
        exists k : nat,
          (k <= fuel)%nat /\
          mined_from w block k w' /\
          (k = O -> w' = w) /\
          h' = hash_block (heap w' block) /\
          startswith h' zeros = true /\
          (forall j : nat, (j < k)%nat ->
             meets_target zeros (heap w block)
               (nonce (heap w block) + Z.of_nat j) = false)
    | Raise _ _ => False
    | OutOfFuel =>
        forall j : nat, (j <= fuel)%nat ->
          meets_target zeros (heap w block)
            (nonce (heap w block) + Z.of_nat j) = false
    end.
Proof.
  induction fuel as [|fuel IH]; intros w h ->; cbn [proof_of_work_while];
    destruct (startswith (hash_block (heap w block)) zeros) eqn:Hmeet;
    cbn [negb].
  - exists O. split; [lia|]. split; [apply mined_from_zero|].
    repeat split; auto. intros j Hj. lia.
  - intros j Hj. replace j with O by lia.
    now rewrite Z.add_0_r, meets_target_own_nonce.
  - exists O. split; [lia|]. split; [apply mined_from_zero|].
    repeat split; auto. intros j Hj. lia.
  - set (w1 := store w block _).
    specialize (IH w1 _ eq_refl).
    assert (Hw1 : heap w1 block
                  = set_nonce (heap w block) (nonce (heap w block) + 1))
      by apply heap_store_same.
    destruct (proof_of_work_while fuel zeros block _ w1) as [h' w'| |].
    + destruct IH as (k & Hk & Hmined & _ & Hh' & Hok & Hleast).
      exists (S k). split; [lia|].
      split; [now apply mined_from_step|].
      split; [discriminate|]. split; [exact Hh'|]. split; [exact Hok|].
      intros [|j] Hj.
      * now rewrite Z.add_0_r, meets_target_own_nonce.
      * specialize (Hleast j ltac:(lia)).
        rewrite Hw1 in Hleast. cbn [nonce set_nonce] in Hleast.
        unfold meets_target in *. rewrite set_nonce_twice in Hleast.
        rewrite <- Hleast. do 3 f_equal. lia.
    + exact IH.
    + intros [|j] Hj.
      * now rewrite Z.add_0_r, meets_target_own_nonce.
      * specialize (IH j ltac:(lia)).
        rewrite Hw1 in IH. cbn [nonce set_nonce] in IH.
        unfold meets_target in *. rewrite set_nonce_twice in IH.
        rewrite <- IH. do 3 f_equal. lia.
Qed.

(** The same, for the method. *)
Lemma proof_of_work_spec (fuel : nat) (self : PyChain) (block : ref)
    (w : World) :
  let zeros := str_mul "0" (difficulty self) in
  let b := heap w block in
  match proof_of_work fuel self block w with
  | Return block' w' =>
      block' = block /\
      exists k : nat,
        (k <= fuel)%nat /\
        mined_from w block k w' /\
        (k = O -> w' = w) /\
        startswith (hash_block (heap w' block)) zeros = true /\
        (forall j : nat, (j < k)%nat ->
           meets_target zeros b (nonce b + Z.of_nat j) = false)
  | Raise _ _ => False
  | OutOfFuel =>
      forall j : nat, (j <= fuel)%nat ->
        meets_target zeros b (nonce b + Z.of_nat j) = false
  end.
Proof.
  intros zeros b. unfold proof_of_work. fold zeros.
  pose proof (proof_of_work_while_spec zeros block fuel w _ eq_refl) as H.
  destruct (proof_of_work_while fuel zeros block _ w) as [h' w'| |];
    [|exact H|exact H].
  destruct H as (k & Hk & Hmined & Hsame & -> & Hok & Hleast).
  split; [reflexivity|]. exists k. auto 10.
Qed.

(** A block that already meets the target comes back at once,
    untouched. *)
Lemma proof_of_work_immediate (fuel : nat) (self : PyChain) (block : ref)
    (w : World) :
  startswith (hash_block (heap w block)) (str_mul "0" (difficulty self))
    = true ->
  proof_of_work fuel self block w = Return block w.
Proof.
  intros H. unfold proof_of_work.
  destruct fuel; cbn [proof_of_work_while]; now rewrite H.
Qed.

(** Enough fuel reaches any nonce that meets the target. *)
Lemma proof_of_work_reaches (self : PyChain) (block : ref) (w : World)
    (j : nat) :
  meets_target (str_mul "0" (difficulty self)) (heap w block)
    (nonce (heap w block) + Z.of_nat j) = true ->
  exists w', proof_of_work j self block w = Return block w'.
Proof.
  intros Hj. pose proof (proof_of_work_spec j self block w) as H.
  cbn zeta in H.
  destruct (proof_of_work j self block w) as [block' w'| |].
  - destruct H as [-> _]. now exists w'.
  - contradiction.
  - rewrite (H j (Nat.le_refl j)) in Hj. discriminate.
Qed.

(** What a return of the search says about the nonce it stopped at. *)
Lemma proof_of_work_returns_inv (fuel : nat) (self : PyChain)
    (block block' : ref) (w w' : World) :
  proof_of_work fuel self block w = Return block' w' ->
  block' = block /\
  heap w' block = set_nonce (heap w block) (nonce (heap w' block)) /\
  nonce (heap w block) <= nonce (heap w' block) /\
  meets_target (str_mul "0" (difficulty self)) (heap w block)
    (nonce (heap w' block)) = true /\
  (forall m : Z,
      nonce (heap w block) <= m < nonce (heap w' block) ->
      meets_target (str_mul "0" (difficulty self)) (heap w block) m = false).
Proof.
  intros E. pose proof (proof_of_work_spec fuel self block w) as H.
  rewrite E in H. cbn zeta in H.
  destruct H as (-> & k & _ & (Hb & _) & _ & Hok & Hleast).
  assert (Hn : nonce (heap w' block) = nonce (heap w block) + Z.of_nat k)
    by now rewrite Hb.
  rewrite Hn. split; [reflexivity|]. split; [exact Hb|].
  split; [lia|]. split.
  - unfold meets_target. now rewrite <- Hb.
  - intros m Hm.
    specialize (Hleast (Z.to_nat (m - nonce (heap w block))) ltac:(lia)).
    now replace (nonce (heap w block)
                 + Z.of_nat (Z.to_nat (m - nonce (heap w block))))
      with m in Hleast by lia.
Qed.

(** Above 64 the search finds nothing, however long it runs. *)
Lemma proof_of_work_beyond_64 (fuel : nat) (self : PyChain) (block : ref)
    (w : World) :
  64 < difficulty self -> proof_of_work fuel self block w = OutOfFuel.
Proof.
  intros Hd. pose proof (proof_of_work_spec fuel self block w) as H.
  cbn zeta in H.
  destruct (proof_of_work fuel self block w) as [block' w'| |];
    [|contradiction|reflexivity].
  destruct H as (_ & k & _ & (Hb & _) & _ & Hok & _).
  rewrite Hb in Hok.
  pose proof (meets_target_too_long (difficulty self) (heap w block)
                (nonce (heap w block) + Z.of_nat k) Hd) as Hno.
  unfold meets_target in Hno. congruence.
Qed.

Lemma no_leading_zeros_beyond_64 (d : Z) (b : Block) :
  64 < d -> ~ leading_zeros d (hash_block b).
Proof.
  intros Hd Hz. apply startswith_leading_zeros in Hz.
  pose proof (meets_target_too_long d b (nonce b) Hd) as Hno.
  rewrite meets_target_own_nonce in Hno. congruence.
Qed.

End Mining.

(* ================================================================== *)
(** ** Claims about the proof-of-work search *)

Section MiningClaims.

Context {B : Builtins}.

Lemma returns_inv {A : Type} (o : outcome A) :
  returns o = true -> exists a w, o = Return a w.
Proof. destruct o as [a w| |]; [eauto|discriminate|discriminate]. Qed.

(** C1. Whenever [proof_of_work] returns, the digest of the block it
    returns starts with [difficulty] zeros; and a block whose digest
    already meets the target, as every digest does at difficulty 0,
    is returned at once, with the world (the nonce included) as it
    was. *)
Theorem proof_of_work_meets_target (fuel : nat) (self : PyChain)
    (block : ref) (w : World) :
  (forall block' w',
      proof_of_work fuel self block w = Return block' w' ->
      leading_zeros (difficulty self) (hash_block (heap w' block'))) /\
  (leading_zeros (difficulty self) (hash_block (heap w block)) ->
   proof_of_work fuel self block w = Return block w) /\
  (difficulty self = 0 ->
   proof_of_work fuel self block w = Return block w).
Proof.
  split; [|split].
  - intros block' w' E.
    pose proof (proof_of_work_spec fuel self block w) as H.
    rewrite E in H. cbn zeta in H.
    destruct H as (-> & k & _ & _ & _ & Hok & _).
    now apply startswith_leading_zeros.
  - intros H. apply proof_of_work_immediate.
    now apply startswith_leading_zeros.
  - intros Hd. apply proof_of_work_immediate.
    rewrite Hd. apply startswith_nil.
Qed.

(** C9. When [proof_of_work] returns, it returns the object it was
    given; that block's record, creator, timestamp and previous hash
    are as before, and its nonce is the least one, from the nonce it
    started with, whose digest starts with [difficulty] zeros. *)
Theorem proof_of_work_least_nonce (fuel : nat) (self : PyChain)
    (block block' : ref) (w w' : World)
    (Hret : proof_of_work fuel self block w = Return block' w') :
  block' = block /\
  record (heap w' block) = record (heap w block) /\
  creator_id (heap w' block) = creator_id (heap w block) /\
  timestamp (heap w' block) = timestamp (heap w block) /\
  prev_hash (heap w' block) = prev_hash (heap w block) /\
  nonce (heap w block) <= nonce (heap w' block) /\
  leading_zeros (difficulty self)
    (hash_block (set_nonce (heap w block) (nonce (heap w' block)))) /\
  (forall m : Z,
      nonce (heap w block) <= m < nonce (heap w' block) ->
      ~ leading_zeros (difficulty self)
          (hash_block (set_nonce (heap w block) m))).
Proof.
  destruct (proof_of_work_returns_inv _ _ _ _ _ _ Hret)
    as (-> & Hb & Hle & Hok & Hleast).
  split; [reflexivity|]. rewrite Hb at 1 2 3 4.
  cbn [record creator_id timestamp prev_hash set_nonce].
  do 4 (split; [reflexivity|]). split; [exact Hle|]. split.
  - now apply startswith_leading_zeros.
  - intros m Hm Hzeros. apply startswith_leading_zeros in Hzeros.
    specialize (Hleast m Hm). unfold meets_target in Hleast. congruence.
Qed.

(** C8, as the code has it. The search returns exactly when some nonce
    at or above the block's own has a digest starting with
    [difficulty] zeros. At difficulty 0 (or below) it returns at once;
    above 64 no digest is long enough, and the search never
    returns. *)
Theorem proof_of_work_returns_iff (self : PyChain) (block : ref)
    (w : World) :
  ((exists fuel block' w',
       proof_of_work fuel self block w = Return block' w') <->
   (exists n : Z,
       nonce (heap w block) <= n /\
       leading_zeros (difficulty self)
         (hash_block (set_nonce (heap w block) n)))) /\
  (difficulty self <= 0 ->
   forall fuel, proof_of_work fuel self block w = Return block w) /\
  (64 < difficulty self ->
   forall fuel, proof_of_work fuel self block w = OutOfFuel).
Proof.
  split; [split|split].
  - intros (fuel & block' & w' & E).
    destruct (proof_of_work_returns_inv _ _ _ _ _ _ E)
      as (_ & _ & Hle & Hok & _).
    exists (nonce (heap w' block)). split; [exact Hle|].
    now apply startswith_leading_zeros.
  - intros (n & Hn & Hz). apply startswith_leading_zeros in Hz.
    destruct (proof_of_work_reaches self block w
                (Z.to_nat (n - nonce (heap w block)))) as [w' E].
    + replace (nonce (heap w block)
               + Z.of_nat (Z.to_nat (n - nonce (heap w block))))
        with n by lia.
      exact Hz.
    + eauto.
  - intros Hd fuel. apply proof_of_work_immediate.
    rewrite str_mul_nonpos by exact Hd. apply startswith_nil.
  - intros Hd fuel. now apply proof_of_work_beyond_64.
Qed.

End MiningClaims.

(* ================================================================== *)
(** ** Claims about hashing *)

Section HashingClaims.

Context {B : Builtins}.

(** C5. The digest is a function of the five fields and of nothing
    else: blocks that agree on record, creator, timestamp, previous
    hash and nonce have the same digest; and a digest is always 64
    hexadecimal characters. *)
Theorem hash_block_deterministic :
  (forall b1 b2 : Block,
      record b1 = record b2 ->
      creator_id b1 = creator_id b2 ->
      timestamp b1 = timestamp b2 ->
      prev_hash b1 = prev_hash b2 ->
      nonce b1 = nonce b2 ->
      hash_block b1 = hash_block b2) /\
  (forall b : Block,
      String.length (hash_block b) = 64%nat /\
      string_forallb is_hex (hash_block b) = true).
Proof.
  split.
  - intros b1 b2 Hr Hc Ht Hp Hn.
    rewrite !hash_block_stream. unfold byte_stream.
    now rewrite Hr, Hc, Ht, Hp, Hn.
  - intros b. split; [apply hash_block_length|].
    rewrite hash_block_stream. apply hexdigest_is_hex.
Qed.

(** C10. The fields are fed to the digest with nothing between them,
    so different blocks can feed the same bytes: with previous hash
    ["a1"] and nonce 0, and with previous hash ["a"] and nonce 10, the
    stream ends in ["a10"] both times, and the digests are equal. *)
Theorem hash_block_encoding_not_injective :
  exists b1 b2 : Block,
    prev_hash b1 = VStr "a1" /\ nonce b1 = 0 /\
    prev_hash b2 = VStr "a" /\ nonce b2 = 10 /\
    b1 <> b2 /\
    byte_stream b1 = byte_stream b2 /\
    hash_block b1 = hash_block b2.
Proof.
  pose (b1 := {| record := VStr "Genesis"; creator_id := 0;
                 prev_hash := VStr "a1"; timestamp := "12:00:00";
                 nonce := 0 |}).
  pose (b2 := {| record := VStr "Genesis"; creator_id := 0;
                 prev_hash := VStr "a"; timestamp := "12:00:00";
                 nonce := 10 |}).
  assert (Hstream : byte_stream b1 = byte_stream b2) by reflexivity.
  exists b1, b2. do 4 (split; [reflexivity|]).
  split; [|split].
  - intros Heq. apply (f_equal nonce) in Heq. discriminate Heq.
  - exact Hstream.
  - now rewrite !hash_block_stream, Hstream.
Qed.

(** What a block constructed without a timestamp gets: the default
    the [class] statement computed, whatever the clock reads when the
    block is made. *)
Lemma Block_new_timestamp (defined constructed : World) (r : pyval)
    (c : Z) (p : option pyval) (n : option Z) :
  let (b, w') := Block_new (class_Block defined) r c p None n constructed in
  timestamp (heap w' b) = strftime_HMS (utcnow defined).
Proof. cbn. now rewrite Nat.eqb_refl. Qed.

End HashingClaims.

(** C5, on two objects of the sample session. *)
Lemma hash_block_deterministic_witness :
  hash_block (heap Sample.world Sample.genesis)
  = hash_block (heap Sample.later Sample.genesis).
Proof.
  apply (proj1 hash_block_deterministic); reflexivity.
Defined.

(** C7, evaluated. The class is defined at 12:00:00; a block made five
    seconds later, with no timestamp given, is stamped 12:00:00 and not
    12:00:05, the same as the genesis block made before it. *)
Theorem Block_timestamp_is_not_construction_time :
  let (b, w') :=
    Block_new Sample.Block_cls (VStr "later") 42 None None None Sample.later in
  strftime_HMS (utcnow Sample.later) = "12:00:05" /\
  timestamp (heap w' b) = "12:00:00" /\
  timestamp (heap w' Sample.genesis) = "12:00:00".
Proof. vm_compute. auto. Qed.

(* ================================================================== *)
(** ** The search, run on the sample session *)

(** Mining the genesis block of the sample session at difficulty 1
    takes six increments, as it does in CPython. *)
Example mine_genesis :
  match proof_of_work 6 (Sample.at_difficulty 1) Sample.genesis Sample.world with
  | Return b w' => Some (b, nonce (heap w' b), hash_block (heap w' b))
  | _ => None
  end
  = Some (Sample.genesis, 6,
          "0a0acc73bbbe982d0cf995100b2cfc5fff6013f5e7b8a8aebb8e9146d5d3d7a0").
Proof. vm_compute. reflexivity. Qed.

Example mine_genesis_short_of_fuel :
  returns (proof_of_work 5 (Sample.at_difficulty 1) Sample.genesis Sample.world)
  = false.
Proof. vm_compute. reflexivity. Qed.

(** Evaluates a call on the sample session far enough to name what it
    returns. *)
Ltac sample_run call a w E :=
  destruct (returns_inv call) as (a & w & E); [vm_compute; reflexivity|].

(** C1, on that run. *)
Lemma proof_of_work_meets_target_witness :
  exists b' w',
    proof_of_work 6 (Sample.at_difficulty 1) Sample.genesis Sample.world
      = Return b' w' /\
    leading_zeros 1 (hash_block (heap w' b')).
Proof.
  sample_run (proof_of_work 6 (Sample.at_difficulty 1)
                Sample.genesis Sample.world) b' w' E.
  exists b', w'. split; [exact E|].
  exact (proj1 (proof_of_work_meets_target 6 (Sample.at_difficulty 1)
                  Sample.genesis Sample.world) b' w' E).
Defined.

(** C9, on that run. *)
Lemma proof_of_work_least_nonce_witness :
  exists b' w',
    proof_of_work 6 (Sample.at_difficulty 1) Sample.genesis Sample.world
      = Return b' w' /\
    b' = Sample.genesis /\
    forall m : Z,
      nonce (heap Sample.world Sample.genesis) <= m
        < nonce (heap w' Sample.genesis) ->
      ~ leading_zeros 1
          (hash_block (set_nonce (heap Sample.world Sample.genesis) m)).
Proof.
  sample_run (proof_of_work 6 (Sample.at_difficulty 1)
                Sample.genesis Sample.world) b' w' E.
  exists b', w'. split; [exact E|].
  destruct (proof_of_work_least_nonce 6 (Sample.at_difficulty 1)
              Sample.genesis b' Sample.world w' E)
    as (Hb & _ & _ & _ & _ & _ & _ & Hleast).
  split; [exact Hb|exact Hleast].
Defined.

(** C8 fails at difficulty 65: no nonce of the genesis block has a
    digest with 65 leading zeros, and the search does not return,
    whatever the fuel. *)
Lemma proof_of_work_never_returns_at_65 :
  (forall fuel : nat,
      proof_of_work fuel (Sample.at_difficulty 65) Sample.genesis Sample.world
      = OutOfFuel) /\
  ~ (exists n : Z,
        nonce (heap Sample.world Sample.genesis) <= n /\
        leading_zeros 65
          (hash_block (set_nonce (heap Sample.world Sample.genesis) n))).
Proof.
  split.
  - intros fuel. apply proof_of_work_beyond_64. reflexivity.
  - intros (n & _ & Hz). revert Hz. apply no_leading_zeros_beyond_64. lia.
Qed.

(* ================================================================== *)
(** ** Chain validation *)

Section Validation.

Context {B : Builtins}.

Lemma str_ne_false_iff (s : string) (v : pyval) :
  str_ne s v = false <-> v = VStr s.
Proof.
  destruct v as [s'| |]; cbn; try (split; [discriminate|discriminate]).
  rewrite negb_false_iff, String.eqb_eq.
  split; [now intros ->|now intros [= ->]].
Qed.

Lemma linked_single (w : World) (p : ref) : linked w [p].
Proof. intros i q b _ Hb. destruct i as [|[|i]]; discriminate Hb. Qed.

Lemma linked_cons (w : World) (p b : ref) (rest : list ref) :
  linked w (p :: b :: rest) <->
  prev_hash (heap w b) = VStr (hash_block (heap w p)) /\
  linked w (b :: rest).
Proof.
  split.
  - intros H. split.
    + now apply (H O p b).
    + intros i q c Hq Hc. now apply (H (S i) q c).
  - intros [Hlink H] [|i] q c Hq Hc.
    + cbn in Hq, Hc. now injection Hq as <-; injection Hc as <-.
    + now apply (H i q c).
Qed.

(** The loop answers [True] exactly on a linked chain. *)
Lemma is_valid_for_true (w : World) (rest : list ref) :
  forall (p : ref) (visited : nat),
    fst (is_valid_for w (hash_block (heap w p)) rest visited) = true <->
    linked w (p :: rest).
Proof.
  induction rest as [|b rest IH]; intros p visited; cbn [is_valid_for].
  - split; [intros _; apply linked_single|reflexivity].
  - rewrite linked_cons.
    destruct (str_ne _ (prev_hash (heap w b))) eqn:Hne.
    + split; [discriminate|]. intros [Hlink _].
      apply str_ne_false_iff in Hlink. congruence.
    + apply str_ne_false_iff in Hne. rewrite IH. tauto.
Qed.

(** On a linked chain the loop visits every block after the first. *)
Lemma is_valid_for_visits_all (w : World) (rest : list ref) :
  forall (p : ref) (visited : nat),
    linked w (p :: rest) ->
    snd (is_valid_for w (hash_block (heap w p)) rest visited)
    = (visited + List.length rest)%nat.
Proof.
  induction rest as [|b rest IH]; intros p visited Hl; cbn [is_valid_for].
  - cbn. lia.
  - apply linked_cons in Hl as [Hlink Hl].
    apply str_ne_false_iff in Hlink. rewrite Hlink, IH by exact Hl.
    cbn [List.length]. lia.
Qed.

Lemma last_cons (p q : ref) (l : list ref) : last (q :: l) p = last l q.
Proof.
  revert p q. induction l as [|r l IH]; intros p q; [reflexivity|].
  change (last (q :: r :: l) p) with (last (r :: l) p).
  now rewrite (IH p r), (IH q r).
Qed.

(** At the first broken link the loop stops: it has visited the blocks
    up to the offending one and none after it. *)
Lemma is_valid_for_first_mismatch (w : World) (b : ref) (rest : list ref)
    (pre : list ref) :
  forall (p : ref) (visited : nat),
    linked w (p :: pre) ->
    prev_hash (heap w b) <> VStr (hash_block (heap w (last pre p))) ->
    is_valid_for w (hash_block (heap w p)) (pre ++ b :: rest)%list visited
    = (false, (visited + S (List.length pre))%nat).
Proof.
  induction pre as [|q pre IH]; intros p visited Hl Hbad;
    cbn [app is_valid_for].
  - cbn [last] in Hbad.
    destruct (str_ne _ (prev_hash (heap w b))) eqn:Hne.
    + f_equal. cbn. lia.
    + apply str_ne_false_iff in Hne. contradiction.
  - apply linked_cons in Hl as [Hlink Hl].
    apply str_ne_false_iff in Hlink. rewrite Hlink.
    rewrite IH; [f_equal; cbn; lia|exact Hl|].
    now rewrite <- (last_cons p q pre).
Qed.

Lemma is_valid_returns (self : PyChain) (w : World) :
  chain self <> [] -> exists ok : bool, is_valid self w = Return ok w.
Proof.
  unfold is_valid. destruct (chain self); [contradiction|eauto].
Qed.

Lemma is_valid_true_iff (self : PyChain) (w : World) :
  chain self <> [] ->
  is_valid self w = Return true w <-> linked w (chain self).
Proof.
  unfold is_valid. destruct (chain self) as [|first rest];
    [contradiction|intros _].
  rewrite <- is_valid_for_true with (visited := O). split.
  - now intros [= ->].
  - now intros ->.
Qed.

(** Validity looks at the blocks of the chain only. *)
Lemma linked_ext (w w' : World) (c : list ref) :
  (forall l, In l c -> heap w' l = heap w l) ->
  linked w c -> linked w' c.
Proof.
  intros Hsame H i p b Hp Hb.
  rewrite !Hsame by eauto using nth_error_In. now apply (H i).
Qed.

Lemma linked_snoc (w : World) (x : ref) (c : list ref) :
  c <> [] ->
  linked w (c ++ [x])%list <->
  linked w c /\
  prev_hash (heap w x) = VStr (hash_block (heap w (last c O))).
Proof.
  induction c as [|p c IH]; [contradiction|intros _].
  destruct c as [|b c].
  - cbn [app last]. rewrite linked_cons.
    pose proof (linked_single w p). pose proof (linked_single w x). tauto.
  - change ((p :: b :: c) ++ [x])%list with (p :: b :: (c ++ [x]))%list.
    change (last (p :: b :: c) O) with (last (b :: c) O).
    rewrite !linked_cons.
    change (b :: c ++ [x])%list with ((b :: c) ++ [x])%list.
    rewrite IH by discriminate. tauto.
Qed.

Lemma chain_last_In (c : list ref) (tail : ref) :
  chain_last c = Some tail -> c <> [] /\ last c O = tail /\ In tail c.
Proof.
  destruct c as [|p c]; [discriminate|]. intros [= <-].
  split; [discriminate|]. split; [reflexivity|].
  generalize p. induction c as [|q c IH]; intros p'; cbn [last].
  - now left.
  - right. apply IH.
Qed.

End Validation.

(* ================================================================== *)
(** ** Claims about validation and the append handler *)

Section ValidationClaims.

Context {B : Builtins}.

(** C2. On a non-empty chain [is_valid] returns a boolean and changes
    nothing. It returns [True] exactly when every block after the first
    stores the hash of the block before it. At the first block that
    does not, it returns [False] having visited no block beyond that
    one. A chain of the genesis block alone is valid, whatever the
    block holds; and a two-block chain whose second block has its
    previous hash overwritten with a string other than the hash of the
    first is invalid. *)
Theorem is_valid_iff_linked (self : PyChain) (w : World)
    (Hne : chain self <> []) :
  (exists ok : bool, is_valid self w = Return ok w) /\
  (is_valid self w = Return true w <-> linked w (chain self)) /\
  (is_valid self w = Return false w <-> ~ linked w (chain self)) /\
  (forall (first : ref) (pre : list ref) (b : ref) (rest : list ref),
      chain self = (first :: pre ++ b :: rest)%list ->
      linked w (first :: pre) ->
      prev_hash (heap w b) <> VStr (hash_block (heap w (last pre first))) ->
      is_valid self w = Return false w /\
      snd (is_valid_for w (hash_block (heap w first))
             (pre ++ b :: rest)%list 0)
      = S (List.length pre)) /\
  (forall genesis : ref,
      chain self = [genesis] -> is_valid self w = Return true w) /\
  (forall (b0 b1 : ref) (wrong : string),
      chain self = [b0; b1] ->
      (wrong <> hash_block
                  (heap (store w b1 (set_prev_hash (heap w b1) (VStr wrong)))
                        b0) ->
       is_valid self (store w b1 (set_prev_hash (heap w b1) (VStr wrong)))
       = Return false (store w b1 (set_prev_hash (heap w b1) (VStr wrong)))) /\
      (b0 <> b1 ->
       wrong <> hash_block (heap w b0) ->
       is_valid self (store w b1 (set_prev_hash (heap w b1) (VStr wrong)))
       = Return false (store w b1 (set_prev_hash (heap w b1) (VStr wrong))))).
Proof.
  pose proof (is_valid_true_iff self w Hne) as Htrue.
  destruct (is_valid_returns self w Hne) as [ok Hok].
  split; [eauto|]. split; [exact Htrue|]. split; [|split; [|split]].
  - rewrite <- Htrue, Hok. destruct ok; split; congruence.
  - intros first pre b rest Hc Hl Hbad. unfold is_valid. rewrite Hc.
    rewrite (is_valid_for_first_mismatch w b rest pre first O Hl Hbad).
    split; reflexivity.
  - intros genesis Hc. apply Htrue. rewrite Hc. apply linked_single.
  - intros b0 b1 wrong Hc.
    set (w' := store w b1 (set_prev_hash (heap w b1) (VStr wrong))).
    assert (Hpost : wrong <> hash_block (heap w' b0) ->
                    is_valid self w' = Return false w').
    { intros Hwrong. unfold is_valid. rewrite Hc. cbn [is_valid_for].
      unfold w' at 2. rewrite heap_store_same.
      cbn [prev_hash set_prev_hash str_ne].
      apply not_eq_sym, String.eqb_neq in Hwrong. now rewrite Hwrong. }
    split; [exact Hpost|].
    intros Hdistinct Hwrong. apply Hpost.
    unfold w'. now rewrite heap_store_other.
Qed.

(** C6. With a chain to append to, a click on "Add Block" whose amount
    [float] rejects raises [ValueError] before any block is made or
    mined: whatever the fuel and the difficulty, the outcome is the
    exception, in the world as it was. *)
Theorem add_block_clicked_bad_amount (fuel : nat) (cls : BlockClass)
    (pychain : PyChain) (sender receiver amount : string) (w : World)
    (Hchain : chain pychain <> [])
    (Hbad : float_of_str amount = None) :
  add_block_clicked fuel cls pychain sender receiver amount w
  = Raise ValueError w.
Proof.
  unfold add_block_clicked.
  destruct (chain pychain) as [|first rest] eqn:Hc; [contradiction|].
  cbn [chain_last]. now rewrite Hbad.
Qed.

End ValidationClaims.

(* ================================================================== *)
(** ** Admission *)

Section Admission.

Context {B : Builtins}.

(** Mining changes the nonce of one object and nothing else. *)
Lemma mined_from_other_fields (w w' : World) (block : ref) (k : nat) :
  mined_from w block k w' ->
  forall l : ref,
    record (heap w' l) = record (heap w l) /\
    creator_id (heap w' l) = creator_id (heap w l) /\
    timestamp (heap w' l) = timestamp (heap w l) /\
    prev_hash (heap w' l) = prev_hash (heap w l).
Proof.
  intros (Hb & Hothers & _) l.
  destruct (Nat.eq_dec l block) as [->|Hl].
  - rewrite Hb. cbn [set_nonce record creator_id timestamp prev_hash]. auto.
  - rewrite (Hothers l Hl). auto.
Qed.

(** [add_block] is the search followed by the append. *)
Lemma add_block_spec (fuel : nat) (self : PyChain) (candidate : ref)
    (w : World) :
  match add_block fuel self candidate w with
  | Return self' w' =>
      proof_of_work fuel self candidate w = Return candidate w' /\
      chain self' = (chain self ++ [candidate])%list /\
      difficulty self' = difficulty self /\
      exists k : nat, mined_from w candidate k w'
  | Raise _ _ => False
  | OutOfFuel => proof_of_work fuel self candidate w = OutOfFuel
  end.
Proof.
  unfold add_block.
  pose proof (proof_of_work_spec fuel self candidate w) as H. cbn zeta in H.
  destruct (proof_of_work fuel self candidate w) as [block' w'| |];
    [|exact H|reflexivity].
  destruct H as (-> & k & _ & Hmined & _). cbn [chain difficulty]. eauto 6.
Qed.

Lemma add_block_returns_inv (fuel : nat) (self self' : PyChain)
    (candidate : ref) (w w' : World) :
  add_block fuel self candidate w = Return self' w' ->
  proof_of_work fuel self candidate w = Return candidate w' /\
  chain self' = (chain self ++ [candidate])%list /\
  difficulty self' = difficulty self /\
  exists k : nat, mined_from w candidate k w'.
Proof.
  intros E. pose proof (add_block_spec fuel self candidate w) as H.
  now rewrite E in H.
Qed.

(** With enough fuel [add_block] returns, if any nonce will do. *)
Lemma add_block_reaches (self : PyChain) (candidate : ref) (w : World)
    (n : Z) :
  nonce (heap w candidate) <= n ->
  leading_zeros (difficulty self)
    (hash_block (set_nonce (heap w candidate) n)) ->
  exists fuel self' w', add_block fuel self candidate w = Return self' w'.
Proof.
  intros Hn Hz. apply startswith_leading_zeros in Hz.
  destruct (proof_of_work_reaches self candidate w
              (Z.to_nat (n - nonce (heap w candidate)))) as [w' E].
  - now replace (nonce (heap w candidate)
                 + Z.of_nat (Z.to_nat (n - nonce (heap w candidate))))
      with n by lia.
  - exists (Z.to_nat (n - nonce (heap w candidate))).
    unfold add_block. rewrite E. eauto.
Qed.

(** Appending a correctly wired candidate to a valid chain gives a
    valid chain, when the candidate is a new object, or at least one
    the search did not have to change. *)
Lemma add_block_valid (fuel : nat) (self self' : PyChain)
    (candidate tail : ref) (w w' : World) :
  is_valid self w = Return true w ->
  ~ In candidate (chain self) \/ heap w' candidate = heap w candidate ->
  chain_last (chain self) = Some tail ->
  prev_hash (heap w candidate) = VStr (hash_block (heap w tail)) ->
  add_block fuel self candidate w = Return self' w' ->
  is_valid self' w' = Return true w'.
Proof.
  intros Hvalid Hfresh Htail Hwired Hadd.
  apply chain_last_In in Htail as (Hne & Hlast & Hin).
  apply (is_valid_true_iff self w Hne) in Hvalid.
  apply add_block_returns_inv in Hadd as (_ & Hchain & _ & k & Hmined).
  assert (Hkept : forall l, In l (chain self) -> heap w' l = heap w l).
  { intros l Hl. destruct Hmined as (_ & Hothers & _).
    destruct (Nat.eq_dec l candidate) as [->|Hneq];
      [|now apply Hothers].
    destruct Hfresh as [Hfresh|Hsame]; [contradiction|exact Hsame]. }
  apply is_valid_true_iff; rewrite Hchain.
  - intros Hnil. now apply app_eq_nil in Hnil as [_ Hnil].
  - apply linked_snoc; [exact Hne|]. split.
    + now apply (linked_ext w).
    + destruct (mined_from_other_fields _ _ _ _ Hmined candidate)
        as (_ & _ & _ & ->).
      rewrite Hlast, (Hkept tail Hin). exact Hwired.
Qed.

(** What every ledger of the script satisfies. *)
Lemma built_invariant (pychain : PyChain) (w : World) :
  built pychain w ->
  chain pychain <> [] /\
  (forall l, In l (chain pychain) -> (l < fresh w)%nat) /\
  is_valid pychain w = Return true w.
Proof.
  induction 1 as [cls w
                 |fuel cls pychain w sender receiver amount pychain' w'
                    _ (Hne & Hbound & Hvalid) Hclick
                 |pychain w d _ IH
                 |pychain w t _ (Hne & Hbound & Hvalid)].
  - unfold setup, Block_new, alloc. cbn [fst snd chain fresh].
    split; [discriminate|]. split.
    + intros l [<-|[]]. lia.
    + apply is_valid_true_iff; [discriminate|]. apply linked_single.
  - unfold add_block_clicked in Hclick.
    destruct (chain_last (chain pychain)) as [prev|] eqn:Hlast;
      [|discriminate].
    destruct (float_of_str amount) as [a|]; [|discriminate].
    unfold Block_new, alloc in Hclick.
    set (new_block := Block_init _ _ _ _ _ _) in Hclick.
    set (w1 := {| heap := _ |}) in Hclick.
    assert (Hold : forall l, In l (chain pychain) -> heap w1 l = heap w l).
    { intros l Hl. cbn. apply Hbound in Hl.
      now replace (Nat.eqb l (fresh w)) with false
        by (symmetry; apply Nat.eqb_neq; lia). }
    assert (Hnew : heap w1 (fresh w) = new_block)
      by (cbn; now rewrite Nat.eqb_refl).
    pose proof (chain_last_In _ _ Hlast) as (_ & _ & Hprev).
    assert (Hfresh : ~ In (fresh w) (chain pychain)).
    { intros Hin. apply Hbound in Hin. lia. }
    assert (Hvalid1 : is_valid pychain w1 = Return true w1).
    { apply is_valid_true_iff; [exact Hne|].
      apply (linked_ext w); [exact Hold|].
      now apply is_valid_true_iff. }
    split; [|split].
    + apply add_block_returns_inv in Hclick as (_ & -> & _).
      intros Hnil. now apply app_eq_nil in Hnil as [_ Hnil].
    + apply add_block_returns_inv in Hclick
        as (_ & -> & _ & k & (_ & _ & -> & _)).
      intros l Hl. apply in_app_or in Hl as [Hl|[<-|[]]].
      * apply Hbound in Hl. cbn. lia.
      * cbn. lia.
    + apply (add_block_valid fuel pychain pychain' (fresh w) prev w1 w');
        auto.
      rewrite Hnew, (Hold prev Hprev). reflexivity.
  - exact IH.
  - split; [exact Hne|]. split; [exact Hbound|].
    apply is_valid_true_iff; [exact Hne|].
    apply (linked_ext w); [reflexivity|]. now apply is_valid_true_iff.
Qed.

End Admission.

(* ================================================================== *)
(** ** Claims about admission *)

Section AdmissionClaims.

Context {B : Builtins}.

(** C3. If [is_valid] holds of a ledger, and a candidate stores the
    hash of the chain's last block, the candidate being a new object
    (or a block of the chain that the search leaves as it is), then
    [is_valid] holds of the ledger [add_block] returns; and
    [add_block] does return, given fuel, when some nonce from the
    candidate's own on meets the target. Hence [is_valid] holds of
    every ledger the script builds from [setup] by clicks on "Add
    Block", each of which makes a new block wired to the last. *)
Theorem add_block_keeps_valid :
  (forall (fuel : nat) (self self' : PyChain) (candidate tail : ref)
          (w w' : World),
      is_valid self w = Return true w ->
      ~ In candidate (chain self) \/ heap w' candidate = heap w candidate ->
      chain_last (chain self) = Some tail ->
      prev_hash (heap w candidate) = VStr (hash_block (heap w tail)) ->
      add_block fuel self candidate w = Return self' w' ->
      is_valid self' w' = Return true w') /\
  (forall (self : PyChain) (candidate : ref) (w : World) (n : Z),
      nonce (heap w candidate) <= n ->
      leading_zeros (difficulty self)
        (hash_block (set_nonce (heap w candidate) n)) ->
      exists fuel self' w',
        add_block fuel self candidate w = Return self' w') /\
  (forall (pychain : PyChain) (w : World),
      built pychain w -> is_valid pychain w = Return true w).
Proof.
  split; [|split].
  - intros fuel self self' candidate tail w w'. apply add_block_valid.
  - intros self candidate w n Hn Hz. now apply (add_block_reaches _ _ _ n).
  - intros pychain w Hbuilt. now apply built_invariant.
Qed.

(** C4, as the code has it. [add_block] never raises; it runs out of
    fuel exactly when none of the nonces tried meets the target; and
    when it returns, the search has returned the candidate, mined at
    the ledger's difficulty, the chain is the old chain with the
    candidate appended, one longer, the difficulty is the same, every
    block that was in the chain is at its position with its record,
    creator, timestamp and previous hash, and every object other than
    the candidate is as it was. The nonce of the candidate is what may
    change, also when the candidate is a block of the chain. *)
Theorem add_block_frame (fuel : nat) (self : PyChain) (candidate : ref)
    (w : World) :
  (forall e w', add_block fuel self candidate w <> Raise e w') /\
  (add_block fuel self candidate w = OutOfFuel <->
   forall j : nat, (j <= fuel)%nat ->
     ~ leading_zeros (difficulty self)
         (hash_block (set_nonce (heap w candidate)
                        (nonce (heap w candidate) + Z.of_nat j)))) /\
  (forall self' w',
      add_block fuel self candidate w = Return self' w' ->
      proof_of_work fuel self candidate w = Return candidate w' /\
      leading_zeros (difficulty self) (hash_block (heap w' candidate)) /\
      chain self' = (chain self ++ [candidate])%list /\
      List.length (chain self') = S (List.length (chain self)) /\
      difficulty self' = difficulty self /\
      (forall (i : nat) (b : ref),
          nth_error (chain self) i = Some b ->
          nth_error (chain self') i = Some b /\
          record (heap w' b) = record (heap w b) /\
          creator_id (heap w' b) = creator_id (heap w b) /\
          timestamp (heap w' b) = timestamp (heap w b) /\
          prev_hash (heap w' b) = prev_hash (heap w b) /\
          (b <> candidate -> heap w' b = heap w b)) /\
      (forall l : ref, l <> candidate -> heap w' l = heap w l)).
Proof.
  pose proof (add_block_spec fuel self candidate w) as Hspec.
  pose proof (proof_of_work_spec fuel self candidate w) as Hpow.
  cbn zeta in Hpow.
  split; [|split].
  - intros e w' E. now rewrite E in Hspec.
  - split.
    + intros E. rewrite E in Hspec. rewrite Hspec in Hpow.
      intros j Hj Hz. apply startswith_leading_zeros in Hz.
      specialize (Hpow j Hj). unfold meets_target in Hpow. congruence.
    + intros Hnone.
      destruct (add_block fuel self candidate w) as [self' w'| |];
        [|contradiction|reflexivity].
      destruct Hspec as (E & _). rewrite E in Hpow.
      destruct Hpow as (_ & k & Hk & (Hb & _) & _ & Hok & _).
      rewrite Hb in Hok. apply startswith_leading_zeros in Hok.
      now apply Hnone in Hok.
  - intros self' w' E. rewrite E in Hspec.
    destruct Hspec as (Hsearch & Hchain & Hdiff & k & Hmined).
    split; [exact Hsearch|]. split.
    { rewrite Hsearch in Hpow.
      destruct Hpow as (_ & k' & _ & _ & _ & Hok & _).
      now apply startswith_leading_zeros. }
    split; [exact Hchain|]. split.
    { rewrite Hchain, length_app. cbn. lia. }
    split; [exact Hdiff|]. split.
    + intros i b Hi. split.
      * rewrite Hchain, nth_error_app1; [exact Hi|].
        apply nth_error_Some. congruence.
      * destruct (mined_from_other_fields _ _ _ _ Hmined b)
          as (Hr & Hc & Ht & Hp).
        repeat (split; [assumption|]).
        destruct Hmined as (_ & Hothers & _). apply Hothers.
    + destruct Hmined as (_ & Hothers & _). exact Hothers.
Qed.

End AdmissionClaims.

(* ================================================================== *)
(** ** Validation and admission, run on the sample session *)

(** The scenario of the specification: after the click the chain has
    two blocks, the new block was mined to nonce 111 with a digest that
    starts with two zeros, as in CPython, and the chain is valid. *)
Example alice_pays_bob :
  match Sample.clicked with
  | Return p w =>
      Some (chain p, record (heap w 1%nat), nonce (heap w 1%nat),
            hash_block (heap w 1%nat), returns (is_valid p w))
  | _ => None
  end
  = Some ([0%nat; 1%nat],
          VRecord {| sender := "Alice"; receiver := "Bob";
                     amount := (10 : @pyfloat Whole.builtins) |},
          111,
          "00840b19ee0c64d578590ba61e9d5f6b2127c788a4d7cacf2cefefce02261224",
          true).
Proof. vm_compute. reflexivity. Qed.

(** C2, on the ledger [setup] makes. *)
Lemma is_valid_iff_linked_witness :
  chain Sample.pychain <> [] /\
  is_valid Sample.pychain Sample.world = Return true Sample.world.
Proof.
  assert (Hne : chain Sample.pychain <> []) by discriminate.
  split; [exact Hne|].
  exact (proj1 (proj2 (proj2 (proj2 (proj2
           (is_valid_iff_linked Sample.pychain Sample.world Hne)))))
           Sample.genesis eq_refl).
Defined.

Lemma sample_ledger_built : built (Sample.at_difficulty 2) Sample.later.
Proof.
  apply (built_clock (Sample.at_difficulty 2) Sample.world 43205).
  apply (built_slider Sample.pychain Sample.world 2).
  apply (built_setup Sample.Block_cls Sample.noon).
Qed.

(** C3, on the click of the sample session. *)
Lemma add_block_keeps_valid_witness :
  exists p' w',
    add_block_clicked 111 Sample.Block_cls (Sample.at_difficulty 2)
      "Alice" "Bob" "10" Sample.later
    = Return p' w' /\
    is_valid p' w' = Return true w'.
Proof.
  sample_run (add_block_clicked 111 Sample.Block_cls (Sample.at_difficulty 2)
                "Alice" "Bob" "10" Sample.later) p' w' E.
  exists p', w'. split; [exact E|].
  apply (proj2 (proj2 add_block_keeps_valid)).
  exact (built_click 111 Sample.Block_cls (Sample.at_difficulty 2)
           Sample.later "Alice" "Bob" "10" p' w' sample_ledger_built E).
Defined.

(** C4 fails when the candidate is a block of the chain: offered the
    genesis block again at difficulty 1, [add_block] mines it in place,
    and the block at position 0 has nonce 6 where it had 0. *)
Lemma add_block_mutates_aliased_block :
  exists self' w',
    add_block 6 (Sample.at_difficulty 1) Sample.genesis Sample.world
      = Return self' w' /\
    nth_error (chain (Sample.at_difficulty 1)) 0 = Some Sample.genesis /\
    nth_error (chain self') 0 = Some Sample.genesis /\
    nonce (heap Sample.world Sample.genesis) = 0 /\
    nonce (heap w' Sample.genesis) = 6.
Proof.
  pose (run := add_block 6 (Sample.at_difficulty 1) Sample.genesis
                 Sample.world).
  assert (Hobs : match run with
                 | Return self' w' =>
                     Some (chain self', nonce (heap w' Sample.genesis))
                 | _ => None
                 end = Some ([0%nat; 0%nat], 6))
    by (vm_compute; reflexivity).
  fold run. destruct run as [self' w'| |]; try discriminate Hobs.
  injection Hobs as Hchain Hnonce.
  exists self', w'. rewrite Hchain. repeat split; assumption || reflexivity.
Qed.

(** C6, on the sample session: the amount ["ten"] is rejected even
    with no fuel and at a difficulty no search can meet. *)
Lemma add_block_clicked_bad_amount_witness :
  add_block_clicked 0 Sample.Block_cls (Sample.at_difficulty 65)
    "Alice" "Bob" "ten" Sample.later
  = Raise ValueError Sample.later.
Proof.
  apply add_block_clicked_bad_amount; [discriminate|reflexivity].
Defined.

(* ================================================================== *)
(** ** More on validation: what it catches and what it misses *)

Section ValidationReach.

Context {B : Builtins}.

Lemma is_valid_false_iff (self : PyChain) (w : World) :
  chain self <> [] ->
  is_valid self w = Return false w <-> ~ linked w (chain self).
Proof.
  intros Hne. rewrite <- (is_valid_true_iff self w Hne).
  destruct (is_valid_returns self w Hne) as [[|] ->]; split; congruence.
Qed.

Lemma leading_zeros_le (d d' : Z) (s : string) :
  d' <= d -> leading_zeros d s -> leading_zeros d' s.
Proof. intros Hd H i Hi. apply H. lia. Qed.

(** A ledger with no block at all makes both [is_valid] and the "Add
    Block" handler raise [IndexError], whatever the amount typed: the
    handler looks up the last block before it parses the amount. *)
Theorem empty_chain_raises_IndexError (fuel : nat) (cls : BlockClass)
    (self : PyChain) (sender receiver amount : string) (w : World)
    (Hempty : chain self = []) :
  is_valid self w = Raise IndexError w /\
  add_block_clicked fuel cls self sender receiver amount w
  = Raise IndexError w.
Proof.
  unfold is_valid, add_block_clicked. rewrite Hempty. split; reflexivity.
Qed.

(** [setup] makes one new object, the genesis block, with the defaults
    of the class for previous hash, timestamp and nonce, and changes no
    other object; the ledger holds that block alone, at difficulty 4,
    and is valid. The genesis block is not mined. *)
Theorem setup_makes_genesis (defined w : World) :
  chain (fst (setup (class_Block defined) w)) = [fresh w] /\
  difficulty (fst (setup (class_Block defined) w)) = 4 /\
  heap (snd (setup (class_Block defined) w)) (fresh w)
  = {| record := VStr "Genesis"; creator_id := 0; prev_hash := VInt 0;
       timestamp := strftime_HMS (utcnow defined); nonce := 0 |} /\
  fresh (snd (setup (class_Block defined) w)) = S (fresh w) /\
  (forall l : ref,
      l <> fresh w ->
      heap (snd (setup (class_Block defined) w)) l = heap w l) /\
  is_valid (fst (setup (class_Block defined) w))
    (snd (setup (class_Block defined) w))
  = Return true (snd (setup (class_Block defined) w)).
Proof.
  unfold setup, Block_new, alloc, Block_init, class_Block.
  cbn [fst snd chain difficulty heap fresh from_default
       default_prev_hash default_timestamp default_nonce].
  rewrite Nat.eqb_refl. repeat split.
  intros l Hl. now apply Nat.eqb_neq in Hl as ->.
Qed.

(** After [add_block] of a new object to a valid ledger, the ledger is
    valid exactly when the candidate stored the hash of the last block:
    [add_block] appends whatever it is given. A candidate left with an
    integer for previous hash, as the default [0] is, gives an invalid
    ledger. *)
Theorem add_block_valid_iff_wired (fuel : nat) (self self' : PyChain)
    (candidate tail : ref) (w w' : World)
    (Hvalid : is_valid self w = Return true w)
    (Hnew : ~ In candidate (chain self))
    (Htail : chain_last (chain self) = Some tail)
    (Hadd : add_block fuel self candidate w = Return self' w') :
  (is_valid self' w' = Return true w' <->
   prev_hash (heap w candidate) = VStr (hash_block (heap w tail))) /\
  (forall n : Z,
      prev_hash (heap w candidate) = VInt n ->
      is_valid self' w' = Return false w').
Proof.
  apply chain_last_In in Htail as (Hne & Hlast & Hin).
  apply (is_valid_true_iff self w Hne) in Hvalid.
  apply add_block_returns_inv in Hadd as (_ & Hchain & _ & k & Hmined).
  assert (Hkept : forall l, In l (chain self) -> heap w' l = heap w l).
  { intros l Hl. destruct Hmined as (_ & Hothers & _).
    apply Hothers. intros ->. contradiction. }
  assert (Hne' : chain self' <> []).
  { rewrite Hchain. intros Hnil. now apply app_eq_nil in Hnil as [_ Hnil]. }
  assert (Hiff : is_valid self' w' = Return true w' <->
                 prev_hash (heap w candidate)
                 = VStr (hash_block (heap w tail))).
  { rewrite (is_valid_true_iff self' w' Hne'), Hchain.
    rewrite (linked_snoc w' candidate (chain self) Hne).
    destruct (mined_from_other_fields _ _ _ _ Hmined candidate)
      as (_ & _ & _ & ->).
    rewrite Hlast, (Hkept tail Hin).
    pose proof (linked_ext w w' (chain self) Hkept Hvalid). tauto. }
  split; [exact Hiff|].
  intros n Hn. apply is_valid_false_iff; [exact Hne'|].
  rewrite <- (is_valid_true_iff self' w' Hne'), Hiff, Hn. discriminate.
Qed.

(** [is_valid] never hashes the last block: replacing it by any block
    with the same previous hash, whatever its record, creator,
    timestamp and nonce, does not change the answer. *)
Theorem is_valid_ignores_last_block (self : PyChain) (w : World)
    (pre : list ref) (tail : ref) (b' : Block)
    (Hchain : chain self = (pre ++ [tail])%list)
    (Hpre : pre <> [])
    (Hnew : ~ In tail pre)
    (Hprev : prev_hash b' = prev_hash (heap w tail)) :
  is_valid self (store w tail b') = Return true (store w tail b') <->
  is_valid self w = Return true w.
Proof.
  assert (Hne : chain self <> []).
  { rewrite Hchain. intros Hnil. now apply app_eq_nil in Hnil as [_ Hnil]. }
  rewrite !(is_valid_true_iff self _ Hne), Hchain.
  rewrite !(linked_snoc _ tail pre Hpre), heap_store_same, Hprev.
  assert (Hsame : forall l, In l pre -> heap (store w tail b') l = heap w l).
  { intros l Hl. apply heap_store_other. intros ->. contradiction. }
  assert (Hlast : In (last pre O) pre).
  { destruct (exists_last Hpre) as (q & x & ->).
    rewrite last_last. apply in_or_app. right. now left. }
  rewrite (Hsame _ Hlast). split; intros [Hl Hp]; split; try exact Hp.
  - apply (linked_ext (store w tail b')); [|exact Hl].
    intros l Hin. symmetry. now apply Hsame.
  - now apply (linked_ext w).
Qed.

(** [is_valid] catches a change to any block that has a successor:
    if the chain was valid and a block followed by another object is
    replaced by one with a different digest, the chain is invalid. *)
Theorem is_valid_detects_tampering (self : PyChain) (w : World)
    (i : nat) (a b : ref) (a' : Block)
    (Hvalid : is_valid self w = Return true w)
    (Ha : nth_error (chain self) i = Some a)
    (Hb : nth_error (chain self) (S i) = Some b)
    (Hab : a <> b)
    (Hhash : hash_block a' <> hash_block (heap w a)) :
  is_valid self (store w a a') = Return false (store w a a').
Proof.
  assert (Hne : chain self <> []).
  { intros Hnil. rewrite Hnil in Ha. destruct i; discriminate Ha. }
  apply (is_valid_true_iff self w Hne) in Hvalid.
  apply is_valid_false_iff; [exact Hne|]. intros Hl.
  specialize (Hl i a b Ha Hb). specialize (Hvalid i a b Ha Hb).
  rewrite heap_store_same, heap_store_other in Hl by auto.
  congruence.
Qed.

(** Mining is idempotent, and a mined block satisfies every lower
    difficulty: a block that [proof_of_work] has returned is returned
    again at once, unchanged, at the same or any lower difficulty. *)
Theorem proof_of_work_idempotent (fuel fuel' : nat) (self self2 : PyChain)
    (block block' : ref) (w w' : World)
    (Hret : proof_of_work fuel self block w = Return block' w')
    (Hlower : difficulty self2 <= difficulty self) :
  proof_of_work fuel' self2 block' w' = Return block' w'.
Proof.
  pose proof (proof_of_work_spec fuel self block w) as H.
  rewrite Hret in H. cbn zeta in H.
  destruct H as (-> & k & _ & _ & _ & Hok & _).
  apply proof_of_work_immediate, startswith_leading_zeros.
  apply (leading_zeros_le (difficulty self)); [exact Hlower|].
  now apply startswith_leading_zeros.
Qed.

End ValidationReach.

(* ================================================================== *)
(** ** The same, on hand-made ledgers *)

(** A ledger with no block, and the amount "ten". *)
Lemma empty_chain_raises_IndexError_witness :
  is_valid {| chain := []; difficulty := 4 |} Sample.world
  = Raise IndexError Sample.world /\
  add_block_clicked 0 Sample.Block_cls {| chain := []; difficulty := 4 |}
    "Alice" "Bob" "ten" Sample.world
  = Raise IndexError Sample.world.
Proof. apply empty_chain_raises_IndexError. reflexivity. Defined.

Lemma single_block_ledger_valid {B : Builtins} (g : ref) (d : Z)
    (w : World) :
  is_valid {| chain := [g]; difficulty := d |} w = Return true w.
Proof. reflexivity. Qed.

(** A block made with the defaults and appended at difficulty 0 breaks
    the chain. *)
Lemma add_block_valid_iff_wired_witness :
  exists self' w',
    add_block 0 {| chain := [0%nat]; difficulty := 0 |} 1%nat Tamper.unwired
      = Return self' w' /\
    is_valid self' w' = Return false w'.
Proof.
  sample_run (add_block 0 {| chain := [0%nat]; difficulty := 0 |} 1%nat
                Tamper.unwired) self' w' E.
  exists self', w'. split; [exact E|].
  apply (proj2 (add_block_valid_iff_wired 0
                  {| chain := [0%nat]; difficulty := 0 |} self' 1%nat 0%nat
                  Tamper.unwired w'
                  (single_block_ledger_valid 0%nat 0 Tamper.unwired)
                  ltac:(intros [H|[]]; discriminate H)
                  eq_refl E) 0).
  reflexivity.
Defined.

Lemma tamper_ledger_valid :
  is_valid Tamper.pychain Tamper.world = Return true Tamper.world.
Proof.
  apply is_valid_true_iff; [discriminate|].
  apply linked_cons. split; [vm_compute; reflexivity|apply linked_single].
Qed.

(** The last block of the hand-made ledger with another nonce: still
    valid. *)
Lemma is_valid_ignores_last_block_witness :
  is_valid Tamper.pychain
    (store Tamper.world 1%nat (set_nonce Tamper.second 5))
  = Return true (store Tamper.world 1%nat (set_nonce Tamper.second 5)).
Proof.
  apply (is_valid_ignores_last_block Tamper.pychain Tamper.world
           [0%nat] 1%nat (set_nonce Tamper.second 5)).
  - reflexivity.
  - discriminate.
  - intros [H|[]]. discriminate H.
  - vm_compute. reflexivity.
  - exact tamper_ledger_valid.
Defined.

(** The genesis block of the hand-made ledger with another creator:
    invalid. *)
Lemma is_valid_detects_tampering_witness :
  is_valid Tamper.pychain (store Tamper.world 0%nat Tamper.forged)
  = Return false (store Tamper.world 0%nat Tamper.forged).
Proof.
  apply (is_valid_detects_tampering Tamper.pychain Tamper.world
           0 0%nat 1%nat Tamper.forged tamper_ledger_valid).
  - reflexivity.
  - reflexivity.
  - discriminate.
  - intros H. vm_compute in H. discriminate H.
Defined.

(** The genesis block, mined at difficulty 1, offered again at
    difficulty 0 and with no fuel. *)
Lemma proof_of_work_idempotent_witness :
  exists b' w',
    proof_of_work 6 (Sample.at_difficulty 1) Sample.genesis Sample.world
      = Return b' w' /\
    proof_of_work 0 (Sample.at_difficulty 0) b' w' = Return b' w'.
Proof.
  sample_run (proof_of_work 6 (Sample.at_difficulty 1)
                Sample.genesis Sample.world) b' w' E.
  exists b', w'. split; [exact E|].
  apply (proof_of_work_idempotent 6 0 (Sample.at_difficulty 1)
           (Sample.at_difficulty 0) Sample.genesis b' Sample.world w' E).
  vm_compute. discriminate.
Defined.

(* ================================================================== *)
(** ** The "Add Block" handler *)

Section Handler.

Context {B : Builtins}.

(** What a returning click has done. *)
Lemma add_block_clicked_returns_inv (fuel : nat) (cls : BlockClass)
    (pychain pychain' : PyChain) (sender receiver amount : string)
    (w w' : World) :
  add_block_clicked fuel cls pychain sender receiver amount w
  = Return pychain' w' ->
  exists (tail : ref) (x : pyfloat),
    chain_last (chain pychain) = Some tail /\
    float_of_str amount = Some x /\
    chain pychain' = (chain pychain ++ [fresh w])%list /\
    difficulty pychain' = difficulty pychain /\
    record (heap w' (fresh w))
    = VRecord {| sender := sender; receiver := receiver; amount := x |} /\
    creator_id (heap w' (fresh w)) = 42 /\
    prev_hash (heap w' (fresh w)) = VStr (hash_block (heap w tail)) /\
    timestamp (heap w' (fresh w)) = default_timestamp cls /\
    default_nonce cls <= nonce (heap w' (fresh w)) /\
    leading_zeros (difficulty pychain) (hash_block (heap w' (fresh w))) /\
    (forall l : ref, l <> fresh w -> heap w' l = heap w l) /\
    fresh w' = S (fresh w) /\
    utcnow w' = utcnow w.
Proof.
  unfold add_block_clicked. intros Hclick.
  destruct (chain_last (chain pychain)) as [tail|]; [|discriminate].
  destruct (float_of_str amount) as [x|]; [|discriminate].
  unfold Block_new, alloc in Hclick.
  set (new_block := Block_init _ _ _ _ _ _) in Hclick.
  set (w1 := {| heap := _ |}) in Hclick.
  assert (Hnew : heap w1 (fresh w) = new_block)
    by (cbn; now rewrite Nat.eqb_refl).
  assert (Hold : forall l, l <> fresh w -> heap w1 l = heap w l).
  { intros l Hl. cbn. now apply Nat.eqb_neq in Hl as ->. }
  apply add_block_returns_inv in Hclick
    as (Hsearch & Hchain & Hdiff & k & Hmined).
  pose proof (proof_of_work_spec fuel pychain (fresh w) w1) as Hpow.
  rewrite Hsearch in Hpow. cbn zeta in Hpow.
  destruct Hpow as (_ & _ & _ & _ & _ & Hok & _).
  destruct Hmined as (Hb & Hothers & Hfresh & Hclock).
  rewrite Hnew in Hb.
  exists tail, x. rewrite Hb.
  cbn [record creator_id prev_hash timestamp nonce set_nonce new_block
       Block_init from_default].
  repeat (split; [reflexivity|]).
  split; [exact Hchain|]. split; [exact Hdiff|].
  repeat (split; [reflexivity|]).
  split; [lia|]. split.
  { rewrite Hb in Hok. now apply startswith_leading_zeros. }
  split; [|split; [exact Hfresh|exact Hclock]].
  intros l Hl. rewrite (Hothers l Hl). now apply Hold.
Qed.

(** A click raises only before it has made anything. *)
Lemma add_block_clicked_raises_inv (fuel : nat) (cls : BlockClass)
    (pychain : PyChain) (sender receiver amount : string) (w w' : World)
    (e : exn) :
  add_block_clicked fuel cls pychain sender receiver amount w = Raise e w' ->
  w' = w /\
  (e = IndexError /\ chain pychain = [] \/
   e = ValueError /\ chain pychain <> [] /\ float_of_str amount = None).
Proof.
  unfold add_block_clicked. intros Hclick.
  destruct (chain pychain) as [|first rest] eqn:Hc; cbn [chain_last] in Hclick.
  - injection Hclick as <- <-. auto.
  - destruct (float_of_str amount) as [x|].
    + unfold Block_new, alloc in Hclick.
      match type of Hclick with
      | add_block ?f ?p ?c ?w1 = _ =>
          pose proof (add_block_spec f p c w1) as Hspec
      end.
      rewrite Hclick in Hspec. contradiction.
    + injection Hclick as <- <-. split; [reflexivity|]. right.
      repeat split. discriminate.
Qed.

(** A click on "Add Block" that returns has appended one new object to
    the chain: a block with the record typed in, creator 42, the hash
    of the former last block, the timestamp of the class, and a nonce
    mined from the default up to the ledger's difficulty. No other
    object and nothing else of the ledger has changed. A click that
    raises has changed nothing, and raises [IndexError] for an empty
    chain or else [ValueError] for the amount. *)
Theorem add_block_clicked_outcomes (fuel : nat) (cls : BlockClass)
    (pychain : PyChain) (sender receiver amount : string) (w : World) :
  (forall pychain' w',
      add_block_clicked fuel cls pychain sender receiver amount w
      = Return pychain' w' ->
      exists (tail : ref) (x : pyfloat),
        chain_last (chain pychain) = Some tail /\
        float_of_str amount = Some x /\
        chain pychain' = (chain pychain ++ [fresh w])%list /\
        difficulty pychain' = difficulty pychain /\
        record (heap w' (fresh w))
        = VRecord {| sender := sender; receiver := receiver;
                     amount := x |} /\
        creator_id (heap w' (fresh w)) = 42 /\
        prev_hash (heap w' (fresh w)) = VStr (hash_block (heap w tail)) /\
        timestamp (heap w' (fresh w)) = default_timestamp cls /\
        default_nonce cls <= nonce (heap w' (fresh w)) /\
        leading_zeros (difficulty pychain)
          (hash_block (heap w' (fresh w))) /\
        (forall l : ref, l <> fresh w -> heap w' l = heap w l) /\
        fresh w' = S (fresh w) /\
        utcnow w' = utcnow w) /\
  (forall e w',
      add_block_clicked fuel cls pychain sender receiver amount w
      = Raise e w' ->
      w' = w /\
      (e = IndexError /\ chain pychain = [] \/
       e = ValueError /\ chain pychain <> [] /\
       float_of_str amount = None)).
Proof.
  split.
  - intros pychain' w'. apply add_block_clicked_returns_inv.
  - intros e w'. apply add_block_clicked_raises_inv.
Qed.

End Handler.

(* ================================================================== *)
(** ** The timestamp of the class *)

Lemma str_int_digit (d : Z) :
  0 <= d < 10 -> exists c : ascii, str_int d = String c EmptyString.
Proof.
  intros Hd.
  assert (H : d = 0 \/ d = 1 \/ d = 2 \/ d = 3 \/ d = 4 \/
              d = 5 \/ d = 6 \/ d = 7 \/ d = 8 \/ d = 9) by lia.
  repeat (destruct H as [->|H]; [eexists; reflexivity|]).
  subst d. eexists. reflexivity.
Qed.

Lemma two_digits_shape (n : Z) :
  0 <= n < 100 ->
  exists a b : ascii, two_digits n = String a (String b EmptyString).
Proof.
  intros Hn. unfold two_digits.
  destruct (str_int_digit (n / 10)) as [a ->].
  { split; [apply Z.div_pos; lia|apply Z.div_lt_upper_bound; lia]. }
  destruct (str_int_digit (n mod 10)) as [b ->].
  { apply Z.mod_pos_bound. lia. }
  now exists a, b.
Qed.

Lemma strftime_HMS_period (t k : Z) :
  strftime_HMS (t + 86400 * k) = strftime_HMS t.
Proof.
  unfold strftime_HMS.
  replace ((t + 86400 * k) / 3600 mod 24) with (t / 3600 mod 24).
  2:{ replace (t + 86400 * k) with (t + k * 24 * 3600) by lia.
      rewrite Z.div_add by lia. now rewrite Z.mod_add by lia. }
  replace ((t + 86400 * k) / 60 mod 60) with (t / 60 mod 60).
  2:{ replace (t + 86400 * k) with (t + k * 1440 * 60) by lia.
      rewrite Z.div_add by lia.
      replace (k * 1440) with (k * 24 * 60) by lia.
      now rewrite Z.mod_add by lia. }
  replace ((t + 86400 * k) mod 60) with (t mod 60).
  2:{ replace (t + 86400 * k) with (t + k * 1440 * 60) by lia.
      now rewrite Z.mod_add by lia. }
  reflexivity.
Qed.

(** The default timestamp of [Block] is eight characters, two digits
    for each of hours, minutes and seconds with colons between, and
    holds the time of day only: class statements run whole days apart
    give the same timestamp. *)
Theorem default_timestamp_time_of_day {B : Builtins} (w : World) :
  String.length (default_timestamp (class_Block w)) = 8%nat /\
  String.get 2 (default_timestamp (class_Block w)) = Some ":"%char /\
  String.get 5 (default_timestamp (class_Block w)) = Some ":"%char /\
  (forall days : Z,
      default_timestamp
        (class_Block (set_clock w (utcnow w + 86400 * days)))
      = default_timestamp (class_Block w)).
Proof.
  cbn [default_timestamp class_Block utcnow set_clock].
  split; [|split; [|split]]; [| | |intros days; apply strftime_HMS_period].
  all: unfold strftime_HMS;
    destruct (two_digits_shape (utcnow w / 3600 mod 24)) as (h1 & h2 & ->);
      [pose proof (Z.mod_pos_bound (utcnow w / 3600) 24); lia|];
    destruct (two_digits_shape (utcnow w / 60 mod 60)) as (m1 & m2 & ->);
      [pose proof (Z.mod_pos_bound (utcnow w / 60) 60); lia|];
    destruct (two_digits_shape (utcnow w mod 60)) as (s1 & s2 & ->);
      [pose proof (Z.mod_pos_bound (utcnow w) 60); lia|];
    reflexivity.
Qed.

(* ================================================================== *)
(** ** Runs of the script and sessions *)

Section Sessions.

Context {B : Builtins}.

Lemma script_tail_inv (pychain pychain' : PyChain) (inp : Inputs)
    (w w' : World) (result : run_result) :
  script_tail pychain inp w = Some (pychain', w', result) ->
  pychain' = set_difficulty pychain (slider_value inp) /\
  w' = w /\
  match result with
  | Completed None => validate_pressed inp = false
  | Completed (Some ok) =>
      validate_pressed inp = true /\ is_valid pychain' w' = Return ok w'
  | Aborted e => e = IndexError /\ chain pychain = []
  end.
Proof.
  unfold script_tail, is_valid. cbn [chain set_difficulty].
  destruct (validate_pressed inp); [destruct (chain pychain) eqn:Hc|];
    intros [= <- <- <-]; unfold is_valid; cbn [chain set_difficulty];
    rewrite ?Hc; auto.
Qed.

Lemma ledger_shape_set_difficulty (pychain : PyChain) (w : World) (d : Z) :
  1 <= d <= 5 ->
  ledger_shape pychain w -> ledger_shape (set_difficulty pychain d) w.
Proof.
  intros Hd (g & rest & Hc & Hg & Hrest & Hnodup & Hbound & _).
  exists g, rest. cbn [chain difficulty set_difficulty]. auto 10.
Qed.

Lemma ledger_shape_setup (defined w : World) :
  ledger_shape (fst (setup (class_Block defined) w))
               (snd (setup (class_Block defined) w)).
Proof.
  exists (fresh w), []. unfold setup, Block_new, alloc, Block_init, is_genesis.
  cbn [fst snd chain difficulty heap fresh from_default class_Block
       default_prev_hash default_timestamp default_nonce].
  rewrite Nat.eqb_refl.
  cbn [record creator_id prev_hash nonce].
  repeat split; try lia; auto.
  constructor; [intros []|constructor].
Qed.

(** A click that returns keeps the shape of the ledger. *)
Lemma ledger_shape_click (fuel : nat) (defined : World)
    (pychain pychain' : PyChain) (sender receiver amount : string)
    (w w' : World) :
  ledger_shape pychain w ->
  add_block_clicked fuel (class_Block defined) pychain sender receiver
    amount w = Return pychain' w' ->
  ledger_shape pychain' w'.
Proof.
  intros (g & rest & Hc & Hg & Hrest & Hnodup & Hbound & Hd) Hclick.
  apply add_block_clicked_returns_inv in Hclick
    as (tail & x & _ & _ & Hchain & Hdiff & Hrec & Hcre & _ & _ & Hnonce
        & Hzeros & Hothers & Hfresh & _).
  assert (Hkept : forall l, In l (chain pychain) -> heap w' l = heap w l).
  { intros l Hl. apply Hothers.
    rewrite Forall_forall in Hbound. apply Hbound in Hl. lia. }
  exists g, (rest ++ [fresh w])%list.
  split; [now rewrite Hchain, Hc|].
  split; [rewrite Hkept; [exact Hg|rewrite Hc; now left]|].
  split; [|split; [|split]].
  - apply Forall_app. split.
    + rewrite Forall_forall in *. intros l Hl.
      rewrite Hkept; [now apply Hrest|rewrite Hc; now right].
    + constructor; [|constructor]. unfold is_entry.
      rewrite Hrec, Hcre. split; [eauto|]. split; [reflexivity|].
      split; [exact Hnonce|].
      apply (leading_zeros_le (difficulty pychain)); [lia|exact Hzeros].
  - rewrite Hchain. apply NoDup_app; [exact Hnodup|repeat constructor; auto|].
    intros l Hl [<-|[]]. rewrite Forall_forall in Hbound.
    apply Hbound in Hl. lia.
  - rewrite Hchain, Hfresh. apply Forall_app. split.
    + rewrite Forall_forall in *. intros l Hl. apply Hbound in Hl. lia.
    + constructor; [lia|constructor].
  - now rewrite Hdiff.
Qed.

(** What holds of the ledger of a session, after any run. *)
Lemma session_inv (cache : option PyChain) (w : World) :
  session cache w ->
  forall pychain, cache = Some pychain ->
                  ledger_shape pychain w /\ built pychain w.
Proof.
  induction 1 as [w|cache w t _ IH
                 |fuel cache inp w pychain' w' result _ IH Hslider Hrun];
    intros p Hp.
  - discriminate Hp.
  - destruct (IH p Hp) as [Hshape Hbuilt]. split.
    + exact Hshape.
    + now apply built_clock.
  - injection Hp as <-. unfold script_run in Hrun.
    destruct (cached_setup cache (class_Block w) w) as [p0 w0] eqn:Hcs.
    assert (H0 : ledger_shape p0 w0 /\ built p0 w0).
    { destruct cache as [p|]; cbn [cached_setup] in Hcs.
      - injection Hcs as <- <-. now apply IH.
      - rewrite (surjective_pairing (setup (class_Block w) w)) in Hcs.
        injection Hcs as <- <-. split.
        + apply ledger_shape_setup.
        + apply built_setup. }
    destruct H0 as [Hshape Hbuilt].
    destruct (add_block_pressed inp).
    + destruct (add_block_clicked fuel (class_Block w) p0 (sender_text inp)
                  (receiver_text inp) (amount_text inp) w0)
        as [p1 w1|e w1|] eqn:Hclick; [| |discriminate Hrun].
      * apply script_tail_inv in Hrun as (-> & -> & _). split.
        -- apply ledger_shape_set_difficulty; [exact Hslider|].
           now apply (ledger_shape_click _ _ _ _ _ _ _ _ _ Hshape Hclick).
        -- apply built_slider.
           now apply (built_click _ _ _ _ _ _ _ _ _ Hbuilt Hclick).
      * injection Hrun as <- <- <-.
        apply add_block_clicked_raises_inv in Hclick as [-> _]. auto.
    + apply script_tail_inv in Hrun as (-> & -> & _). split.
      * now apply ledger_shape_set_difficulty.
      * now apply built_slider.
Qed.

(** In a session the ledger always starts with the genesis block as
    [setup] made it, never mined; every later block was made by the
    handler and has a digest starting with a zero; no object is in the
    chain twice; the difficulty is between 1 and 5; and the chain is
    valid. *)
Theorem session_ledger (pychain : PyChain) (w : World)
    (Hsession : session (Some pychain) w) :
  ledger_shape pychain w /\ is_valid pychain w = Return true w.
Proof.
  destruct (session_inv _ _ Hsession pychain eq_refl) as [Hshape Hbuilt].
  split; [exact Hshape|]. now apply built_invariant.
Qed.

(** In a session a run ends in one of three ways: at the last line
    with nothing shown, at the last line with "Validate Chain" showing
    [True], or at the [ValueError] of a pressed "Add Block" whose
    amount is not a number. The button never shows [False], and no run
    raises [IndexError]. *)
Theorem session_run_results (fuel : nat) (cache : option PyChain)
    (inp : Inputs) (w w' : World) (pychain' : PyChain)
    (result : run_result)
    (Hsession : session cache w)
    (Hslider : 1 <= slider_value inp <= 5)
    (Hrun : script_run fuel cache inp w = Some (pychain', w', result)) :
  result = Completed None /\ validate_pressed inp = false \/
  result = Completed (Some true) /\ validate_pressed inp = true \/
  result = Aborted ValueError /\ add_block_pressed inp = true /\
  float_of_str (amount_text inp) = None.
Proof.
  pose proof (session_run _ _ _ _ _ _ _ Hsession Hslider Hrun) as Hafter.
  destruct (session_inv _ _ Hafter pychain' eq_refl) as [Hshape Hbuilt].
  apply built_invariant in Hbuilt as (Hne & _ & Hvalid).
  unfold script_run in Hrun.
  destruct (cached_setup cache (class_Block w) w) as [p0 w0].
  assert (Htail : forall p1 w1,
             script_tail p1 inp w1 = Some (pychain', w', result) ->
             result = Completed None /\ validate_pressed inp = false \/
             result = Completed (Some true) /\ validate_pressed inp = true).
  { intros p1 w1 Ht. apply script_tail_inv in Ht as (Hp & _ & Hres).
    destruct result as [[ok|]|e].
    - destruct Hres as [Hpressed Hok]. right. split; [|exact Hpressed].
      rewrite Hvalid in Hok. now injection Hok as <-.
    - now left.
    - destruct Hres as [_ Hempty]. rewrite Hp in Hne. contradiction. }
  destruct (add_block_pressed inp).
  - destruct (add_block_clicked fuel (class_Block w) p0 (sender_text inp)
                (receiver_text inp) (amount_text inp) w0)
      as [p1 w1|e w1|] eqn:Hclick; [| |discriminate Hrun].
    + destruct (Htail p1 w1 Hrun) as [H|H]; auto.
    + injection Hrun as <- <- <-.
      apply add_block_clicked_raises_inv in Hclick
        as [_ [[_ Hempty]|(-> & _ & Hbad)]]; [contradiction|auto].
  - destruct (Htail p0 w0 Hrun) as [H|H]; auto.
Qed.

(** A run on a ledger that has blocks. When it goes to the end, the
    ledger's difficulty is the slider's value; without "Add Block" the
    chain and every object are as before; with it, the chain has one
    new block, mined at the difficulty the ledger had before the run,
    not at the slider's value. When the handler raises, the ledger and
    the world are as before: the slider's value is not assigned and
    nothing is validated. *)
Theorem script_run_effects (fuel : nat) (pychain pychain' : PyChain)
    (inp : Inputs) (w w' : World) (result : run_result)
    (Hne : chain pychain <> [])
    (Hrun : script_run fuel (Some pychain) inp w
            = Some (pychain', w', result)) :
  match result with
  | Completed shown =>
      difficulty pychain' = slider_value inp /\
      (add_block_pressed inp = false ->
       chain pychain' = chain pychain /\ w' = w) /\
      (add_block_pressed inp = true ->
       chain pychain' = (chain pychain ++ [fresh w])%list /\
       leading_zeros (difficulty pychain)
         (hash_block (heap w' (fresh w))) /\
       (forall l : ref, l <> fresh w -> heap w' l = heap w l)) /\
      match shown with
      | Some ok =>
          validate_pressed inp = true /\
          is_valid pychain' w' = Return ok w'
      | None => validate_pressed inp = false
      end
  | Aborted e =>
      e = ValueError /\
      add_block_pressed inp = true /\
      float_of_str (amount_text inp) = None /\
      pychain' = pychain /\ w' = w
  end.
Proof.
  unfold script_run in Hrun. cbn [cached_setup] in Hrun.
  destruct (add_block_pressed inp).
  - destruct (add_block_clicked fuel (class_Block w) pychain
                (sender_text inp) (receiver_text inp) (amount_text inp) w)
      as [p1 w1|e w1|] eqn:Hclick; [| |discriminate Hrun].
    + apply add_block_clicked_returns_inv in Hclick
        as (tail & x & _ & _ & Hchain & Hdiff & _ & _ & _ & _ & _
            & Hzeros & Hothers & _ & _).
      apply script_tail_inv in Hrun as (-> & -> & Hres).
      destruct result as [shown|e].
      * cbn [difficulty chain set_difficulty].
        split; [reflexivity|]. split; [discriminate|].
        split; [auto|]. destruct shown; exact Hres.
      * destruct Hres as [_ Hempty]. rewrite Hchain in Hempty.
        now apply app_eq_nil in Hempty as [_ Hempty].
    + injection Hrun as <- <- <-.
      apply add_block_clicked_raises_inv in Hclick
        as [-> [[_ Hempty]|(-> & _ & Hbad)]]; [contradiction|auto].
  - apply script_tail_inv in Hrun as (-> & -> & Hres).
    destruct result as [shown|e].
    + cbn [difficulty chain set_difficulty].
      split; [reflexivity|]. split; [auto|].
      split; [discriminate|]. destruct shown; exact Hres.
    + destruct Hres as [_ Hempty]. contradiction.
Qed.

End Sessions.

(* ================================================================== *)
(** ** A session, run *)

(** The first run of the sample session, with no button pressed and
    the slider at 2, and the clock moved on five seconds. *)
Lemma sample_session : session (Some (Sample.at_difficulty 2)) Sample.later.
Proof.
  apply (session_clock (Some (Sample.at_difficulty 2)) Sample.world 43205).
  apply (session_run 0 None Tamper.idle Sample.noon
           (Sample.at_difficulty 2) Sample.world (Completed None)).
  - apply session_start.
  - cbn. lia.
  - reflexivity.
Qed.

(** The ledger of that session. *)
Lemma session_ledger_witness :
  ledger_shape (Sample.at_difficulty 2) Sample.later /\
  is_valid (Sample.at_difficulty 2) Sample.later = Return true Sample.later.
Proof. exact (session_ledger _ _ sample_session). Defined.

Lemma bad_amount_run :
  script_run 0 (Some (Sample.at_difficulty 2)) Tamper.bad_amount Sample.later
  = Some (Sample.at_difficulty 2, Sample.later, Aborted ValueError).
Proof. reflexivity. Qed.

(** Then a run with "Add Block" pressed on the amount "ten". *)
Lemma session_run_results_witness :
  Aborted ValueError = Completed None /\
  validate_pressed Tamper.bad_amount = false \/
  Aborted ValueError = Completed (Some true) /\
  validate_pressed Tamper.bad_amount = true \/
  Aborted ValueError = Aborted ValueError /\
  add_block_pressed Tamper.bad_amount = true /\
  @float_of_str Whole.builtins (amount_text Tamper.bad_amount) = None.
Proof.
  apply (session_run_results 0 (Some (Sample.at_difficulty 2))
           Tamper.bad_amount Sample.later Sample.later
           (Sample.at_difficulty 2) (Aborted ValueError) sample_session).
  - cbn. lia.
  - exact bad_amount_run.
Defined.

(** Or a run with "Add Block" pressed on the amount "10", the slider
    at 3 and "Validate Chain" pressed: the new block is mined at
    difficulty 2, and the ledger is left at difficulty 3. *)
Lemma script_run_effects_witness :
  exists p' w' shown,
    script_run 111 (Some (Sample.at_difficulty 2)) Tamper.good_amount
      Sample.later
    = Some (p', w', Completed shown) /\
    difficulty p' = 3 /\
    leading_zeros 2 (hash_block (heap w' 1%nat)).
Proof.
  assert (Hobs : match script_run 111 (Some (Sample.at_difficulty 2))
                         Tamper.good_amount Sample.later with
                 | Some (_, _, Completed _) => true
                 | _ => false
                 end = true) by (vm_compute; reflexivity).
  destruct (script_run 111 (Some (Sample.at_difficulty 2))
              Tamper.good_amount Sample.later)
    as [[[p' w'] [shown|e]]|] eqn:E; try discriminate Hobs.
  exists p', w', shown. split; [reflexivity|].
  pose proof (script_run_effects 111 (Sample.at_difficulty 2) p'
                Tamper.good_amount Sample.later w' (Completed shown)
                ltac:(discriminate) E) as (Hd & _ & Hadd & _).
  split; [exact Hd|]. exact (proj1 (proj2 (Hadd eq_refl))).
Defined.
